(** * Entity Nexus front end: record resolver, graph encoder, lineage tooltip

    A shallow embedding of the TypeScript sources
      - [frontend/src/app/explorer/page.tsx]  (dictionary resolver),
      - [frontend/src/app/page.tsx], [frontend/src/lib/api.ts] (graph fetch),
      - [components/GraphViz.tsx]   (edge / node visual encoding),
      - [components/EntityDetails.tsx] (golden record and lineage tooltip),
    followed by the properties of the specification that they decide.

    JavaScript values are embedded as an inductive type, objects used as
    maps as [gmap string val], numbers as IEEE 754 binary64 in the
    [SpecFloat] formalisation of the Standard Library. *)

From Stdlib Require Import ZArith QArith Qabs String List Lia Lqa.
From Stdlib Require Import Floats.SpecFloat DecimalString.
From stdpp Require Import gmap strings list fin_maps pretty.

Set Warnings "-register-all".
Local Open Scope Z_scope.

(* ===================================================================== *)
(** * Part I.  The embedding                                             *)
(* ===================================================================== *)

(** ** JavaScript numbers: binary64 *)

Module Num.

Definition prec : Z := 53.
Definition emax : Z := 1024.

Abbreviation number := spec_float.

(** An integer literal of the source ([0], [50], [75], [100], [180]...). *)
Definition of_Z (z : Z) : number := binary_normalize prec emax z 0 false.

Definition NaN : number := S754_nan.

(** [x * y] *)
Definition mul (x y : number) : number := SFmul prec emax x y.

(** [x / y]; used to denote decimal literals such as [0.87 = 87 / 100]
    (the quotient is correctly rounded, as the literal is). *)
Definition div (x y : number) : number := SFdiv prec emax x y.

(** [x < y] on numbers: false as soon as one side is NaN. *)
Definition ltb (x y : number) : bool := SFltb x y.

(** ToBoolean on a number: [+0], [-0] and [NaN] are falsy. *)
Definition falsy (x : number) : bool :=
  match x with
  | S754_zero _ | S754_nan => true
  | _ => false
  end.

(** What [JSON.parse] and the arithmetic of the engine can produce. *)
Definition valid (x : number) : bool := valid_binary prec emax x.

(** The real number a finite double denotes; [None] for NaN and the
    infinities. *)
Definition magnitude (m : positive) (e : Z) : Q :=
  if 0 <=? e then inject_Z (Z.pos m * 2 ^ e)
  else Qmake (Z.pos m) (Z.to_pos (2 ^ (- e))).

Definition value (x : number) : option Q :=
  match x with
  | S754_zero _ => Some 0%Q
  | S754_finite s m e => Some (if s then Qopp (magnitude m e) else magnitude m e)
  | S754_infinity _ | S754_nan => None
  end.

(** A finite double is an integer multiple of [2^-1074]: [m * 2^e] in
    that unit. *)
Definition scaled (m : positive) (e : Z) : Z := Z.pos m * 2 ^ (e + 1074).

(** [10^21 <= m * 2^e], decided exactly. *)
Definition ge_1e21 (m : positive) (e : Z) : bool :=
  if 0 <=? e then 10 ^ 21 <=? Z.pos m * 2 ^ e
  else 10 ^ 21 * 2 ^ (- e) <=? Z.pos m.

(** [m * 2^e] rounded to an integer, a tie going to the larger integer:
    the integer [n] of [Number.prototype.toFixed] for zero digits
    ("let n be an integer for which n - x is as close to zero as
    possible; if there are two such n, pick the larger n"). *)
Definition round_half_up (m : positive) (e : Z) : Z :=
  if 0 <=? e then Z.pos m * 2 ^ e
  else (Z.pos m + 2 ^ (- e - 1)) / 2 ^ (- e).

End Num.

Export Num (number).

(** ** Built-ins of the engine that the embedding leaves abstract *)

(** [numberToString] is Number::toString (radix 10), [StringToNumber] the
    StringNumericLiteral parser behind ToNumber, [numberToLocaleString]
    the locale-dependent Number.prototype.toLocaleString. *)
Class Runtime := {
  numberToString : number -> string;
  StringToNumber : string -> number;
  numberToLocaleString : number -> string;
}.

(** A runtime for the worked examples.  It prints the integer-valued
    numbers below [10^21] as Number::toString does, by their decimal
    digits (the examples print no other number; a fraction would come
    out rounded), and parses no string. *)
Definition print_integral (x : number) : string :=
  match x with
  | S754_zero _ => "0"
  | S754_nan => "NaN"
  | S754_infinity s => if s then "-Infinity" else "Infinity"
  | S754_finite s m e =>
      (if s then "-" else "")%string +:+ pretty (Num.round_half_up m e)
  end.

Definition example_runtime : Runtime :=
  {| numberToString := print_integral;
     StringToNumber := fun _ => Num.NaN;
     numberToLocaleString := print_integral |}.

(** ** JavaScript values *)

Module JS.

Inductive Exn :=
| TypeError
| SyntaxError
| Error (msg : string).

Inductive result (A : Type) :=
| Ok (a : A)
| Throw (e : Exn).
Arguments Ok {A} a.
Arguments Throw {A} e.

Definition bind {A B} (r : result A) (k : A -> result B) : result B :=
  match r with
  | Ok a => k a
  | Throw e => Throw e
  end.

Definition try_catch {A} (r : result A) (handler : Exn -> A) : A :=
  match r with
  | Ok a => a
  | Throw e => handler e
  end.

Fixpoint mapM {A B} (f : A -> result B) (l : list A) : result (list B) :=
  match l with
  | [] => Ok []
  | a :: l' => bind (f a) (fun b => bind (mapM f l') (fun bs => Ok (b :: bs)))
  end.

(** JSON values, [undefined], and React elements (the value of a JSX
    expression): tag, props, children. *)
Inductive val :=
| VUndef
| VNull
| VBool (b : bool)
| VNum (x : number)
| VStr (s : string)
| VArr (l : list val)
| VObj (m : gmap string val)
| VElem (tag : string) (props : gmap string val) (children : list val).

(** ToBoolean. *)
Definition truthy (v : val) : bool :=
  match v with
  | VUndef | VNull => false
  | VBool b => b
  | VNum x => negb (Num.falsy x)
  | VStr s => negb (String.eqb s "")
  | VArr _ | VObj _ | VElem _ _ _ => true
  end.

(** [a || b], with [b] already a value. *)
Definition or (a b : val) : val := if truthy a then a else b.

(** [a || b] where evaluating [b] may throw: [b] is evaluated only when
    [a] is falsy. *)
Definition or_else (a : val) (b : result val) : result val :=
  if truthy a then Ok a else b.

(** The children of a React element. *)
Definition children (v : val) : list val :=
  match v with
  | VElem _ _ c => c
  | _ => []
  end.

(** The [i]-th child of a React element. *)
Definition child (i : nat) (v : val) : val := nth i (children v) VUndef.

(** [v === null || v === undefined] *)
Definition nullish (v : val) : bool :=
  match v with
  | VUndef | VNull => true
  | _ => false
  end.

(** The array index a property key denotes, when it is the canonical
    decimal numeral of one. *)
Definition index_of_key (k : string) : option nat :=
  match NilZero.uint_of_string k with
  | Some u =>
      let i := Nat.of_uint u in
      if String.eqb (pretty i) k then Some i else None
  | None => None
  end.

(** Property read [o[k]].  Reading a property of [null] or [undefined]
    throws a TypeError; arrays and strings answer [length] and their
    indices; a missing property reads as [undefined].  Members inherited
    from the built-in prototypes are left out: the keys this program
    reads are none of them. *)
Definition get (o : val) (k : string) : result val :=
  match o with
  | VUndef | VNull => Throw TypeError
  | VObj m => Ok (default VUndef (m !! k))
  | VArr l =>
      if String.eqb k "length" then Ok (VNum (Num.of_Z (Z.of_nat (List.length l))))
      else match index_of_key k with
           | Some i => Ok (nth i l VUndef)
           | None => Ok VUndef
           end
  | VStr s =>
      if String.eqb k "length" then Ok (VNum (Num.of_Z (Z.of_nat (String.length s))))
      else match index_of_key k with
           | Some i =>
               if (i <? String.length s)%nat then Ok (VStr (String.substring i 1 s))
               else Ok VUndef
           | None => Ok VUndef
           end
  | VBool _ | VNum _ | VElem _ _ _ => Ok VUndef
  end.

(** Strings are sequences of 8-bit code units.  Of the white space and
    line terminator code points that [String.prototype.trim] strips,
    those below 256: TAB, LF, VT, FF, CR, SPACE and NBSP. *)
Definition is_space (c : Ascii.ascii) : bool :=
  let n := Ascii.nat_of_ascii c in
  ((9 <=? n) && (n <=? 13) || (n =? 32) || (n =? 160))%nat.

Fixpoint trimStart (s : string) : string :=
  match s with
  | EmptyString => EmptyString
  | String c s' => if is_space c then trimStart s' else s
  end.

Fixpoint trimEnd (s : string) : string :=
  match s with
  | EmptyString => EmptyString
  | String c s' =>
      match trimEnd s' with
      | EmptyString => if is_space c then EmptyString else String c EmptyString
      | t => String c t
      end
  end.

(** [s.trim()] *)
Definition trim (s : string) : string := trimEnd (trimStart s).

Section WithRuntime.
Context {R : Runtime}.

(** ToString, as applied by [String(v)] and by template literals.  An
    array joins the strings of its elements ([null] and [undefined]
    elements give the empty string); any other object gives
    ["[object Object]"]. *)
Fixpoint ToString (v : val) : string :=
  match v with
  | VUndef => "undefined"
  | VNull => "null"
  | VBool b => if b then "true" else "false"
  | VNum x => numberToString x
  | VStr s => s
  | VArr l =>
      (fix join (l : list val) : string :=
         match l with
         | [] => ""
         | x :: l' =>
             let sx := if nullish x then ""%string else ToString x in
             match l' with
             | [] => sx
             | _ :: _ => sx +:+ "," +:+ join l'
             end
         end) l
  | VObj _ | VElem _ _ _ => "[object Object]"
  end.

(** ToNumber. *)
Definition ToNumber (v : val) : number :=
  match v with
  | VUndef => Num.NaN
  | VNull => S754_zero false
  | VBool b => if b then Num.of_Z 1 else S754_zero false
  | VNum x => x
  | VStr s => StringToNumber s
  | VArr _ | VObj _ | VElem _ _ _ => StringToNumber (ToString v)
  end.

(** [v > n] where the right operand is a number: the left operand is
    converted by ToNumber and the comparison is [n < ToNumber v]. *)
Definition gt (v : val) (n : number) : bool := Num.ltb n (ToNumber v).

(** The text a value shows when React renders it as a child: strings
    and numbers as themselves, booleans, [null] and [undefined] as
    nothing, elements and arrays as the text of their children.  (A
    plain object is no valid child; it contributes no text here.) *)
Fixpoint text (v : val) : string :=
  match v with
  | VUndef | VNull | VBool _ => ""
  | VNum x => numberToString x
  | VStr s => s
  | VArr l | VElem _ _ l =>
      (fix all (l : list val) : string :=
         match l with
         | [] => ""
         | x :: l' => text x +:+ all l'
         end) l
  | VObj _ => ""
  end.

(** [value.toLocaleString()] for a value that is neither [null] nor
    [undefined]: locale-aware on numbers, the string itself on strings
    (the two types the golden record declares for its values). *)
Definition toLocaleString (v : val) : string :=
  match v with
  | VNum x => numberToLocaleString x
  | _ => ToString v
  end.

(** [x.toFixed(0)]: NaN, the infinities and magnitudes from [10^21] on
    print as ToString does; otherwise the sign (when [x < 0]) and the
    decimal digits of the rounded magnitude. *)
Definition toFixed0 (x : number) : string :=
  match x with
  | S754_zero _ => "0"
  | S754_finite s m e =>
      if Num.ge_1e21 m e then numberToString x
      else (if s then "-" else "")%string +:+ pretty (Num.round_half_up m e)
  | S754_nan | S754_infinity _ => numberToString x
  end.

End WithRuntime.

End JS.

Export JS (val, VUndef, VNull, VBool, VNum, VStr, VArr, VObj, VElem,
           result, Ok, Throw, TypeError, SyntaxError, Error).

(** ** The HTTP boundary *)

Module Fetch.

(** What a [fetch(url)] followed by [res.json()] can do: the request is
    rejected (no connection), or a response arrives with its [ok] flag
    and a body that parses as JSON ([Some]) or does not ([None]).  The
    parsed body is read at the type the receiving state declares, or
    as the bare JSON value where the code uses it before any state
    receives it. *)
Inductive outcome (A : Type) :=
| Rejected
| Response (ok : bool) (body : option A).
Arguments Rejected {A}.
Arguments Response {A} ok body.

(** [fetch(url).then(res => res.json())]: the status is not looked at. *)
Definition json {A} (o : outcome A) : result A :=
  match o with
  | Rejected => Throw TypeError
  | Response _ None => Throw SyntaxError
  | Response _ (Some d) => Ok d
  end.


(** The same, or the status is not in the 2xx range. *)
Definition refused {A} (o : outcome A) : bool :=
  match o with
  | Rejected | Response _ None => true
  | Response ok (Some _) => negb ok
  end.

End Fetch.

(** ** [app/explorer/page.tsx] *)

Module Explorer.

(** [interface Module] ([Module] is a keyword here). *)
Record ModuleEntry := {
  id : string;
  name : string;
  has_dictionary : bool;
  has_sample : bool;
  has_pdf : bool;
}.

(** [interface DictionaryItem]; the values are whatever the row held. *)
Record DictionaryItem := {
  fieldName : val;
  description : val;
  dnbCode : val;
  type : val;
  length : val;
}.

Inductive Tab := dictionaryTab | sampleTab | docsTab.

Record State := {
  modules : list ModuleEntry;
  selectedModule : option ModuleEntry;
  activeTab : Tab;
  dictionary : list DictionaryItem;
  sample : val;
  loading : bool;
}.

Definition initial : State :=
  {| modules := []; selectedModule := None; activeTab := dictionaryTab;
     dictionary := []; sample := VNull; loading := false |}.

(** The arrow function mapped over [dictData] (lines 57-63):
<<
  fieldName:   item['Field Name'] || item['Element Name'] || item['Name'] || 'Unknown',
  description: item['Description'] || item['Definition'] || '',
  dnbCode:     item['D&B Code'] || item['Dnb Code'] || '',
  type:        item['Data Type'] || item['Type'] || '',
  length:      item['Length'] || ''
>> *)
Definition normalizeItem (item : val) : result DictionaryItem :=
  JS.bind
    (JS.bind (JS.get item "Field Name") (fun a =>
     JS.or_else a (JS.bind (JS.get item "Element Name") (fun b =>
     JS.or_else b (JS.bind (JS.get item "Name") (fun c =>
     JS.or_else c (Ok (VStr "Unknown")))))))) (fun f =>
  JS.bind
    (JS.bind (JS.get item "Description") (fun a =>
     JS.or_else a (JS.bind (JS.get item "Definition") (fun b =>
     JS.or_else b (Ok (VStr "")))))) (fun d =>
  JS.bind
    (JS.bind (JS.get item "D&B Code") (fun a =>
     JS.or_else a (JS.bind (JS.get item "Dnb Code") (fun b =>
     JS.or_else b (Ok (VStr "")))))) (fun c =>
  JS.bind
    (JS.bind (JS.get item "Data Type") (fun a =>
     JS.or_else a (JS.bind (JS.get item "Type") (fun b =>
     JS.or_else b (Ok (VStr "")))))) (fun t =>
  JS.bind
    (JS.bind (JS.get item "Length") (fun a =>
     JS.or_else a (Ok (VStr "")))) (fun l =>
  Ok {| fieldName := f; description := d; dnbCode := c; type := t; length := l |}))))).

(** [const normalizedDict = dictData.map(item => ...)], for the rows of
    an array. *)
Definition normalizedDict (dictData : list val) : result (list DictionaryItem) :=
  JS.mapM normalizeItem dictData.

(** First effect (lines 30-38): the module list.
<<
  fetch(...).then(res => res.json())
    .then(data => { setModules(data);
                    if (data.length > 0) setSelectedModule(data[0]); })
    .catch(err => console.error("Failed to load modules", err));
>> *)
Definition loadModules (st : State) (o : Fetch.outcome (list ModuleEntry)) : State :=
  JS.try_catch
    (JS.bind (Fetch.json o) (fun data =>
       let st1 := {| modules := data; selectedModule := selectedModule st;
                     activeTab := activeTab st; dictionary := dictionary st;
                     sample := sample st; loading := loading st |} in
       Ok (match data with
           | [] => st1
           | m :: _ =>
               {| modules := data; selectedModule := Some m;
                  activeTab := activeTab st; dictionary := dictionary st;
                  sample := sample st; loading := loading st |}
           end)))
    (fun _ => st).


(** [fetch(.../dictionary).then(res => res.json()).catch(() => [])]:
    whatever JSON value the body holds is passed on, an array or not. *)
Definition fetchDict (o : Fetch.outcome val) : val :=
  JS.try_catch (Fetch.json o) (fun _ => VArr []).

(** [fetch(.../sample).then(res => res.json()).catch(() => null)] *)
Definition fetchSample (o : Fetch.outcome val) : val :=
  JS.try_catch (Fetch.json o) (fun _ => VNull).




(** *** The resolver read as a table

    The canonical fields of a dictionary row, the raw keys each accepts
    in priority order, and its default: the data behind the five
    fallback chains of [normalizeItem]. *)
Inductive CanonicalField := FieldName | Description | DnbCode | DataType | Length.

Definition aliases (f : CanonicalField) : list string :=
  match f with
  | FieldName => ["Field Name"; "Element Name"; "Name"]
  | Description => ["Description"; "Definition"]
  | DnbCode => ["D&B Code"; "Dnb Code"]
  | DataType => ["Data Type"; "Type"]
  | Length => ["Length"]
  end.

Definition default_of (f : CanonicalField) : val :=
  match f with
  | FieldName => VStr "Unknown"
  | _ => VStr ""
  end.

(** The value of the first alias whose value is truthy. *)
Fixpoint first_truthy (raw : gmap string val) (keys : list string) (dflt : val) : val :=
  match keys with
  | [] => dflt
  | k :: ks =>
      let v := default VUndef (raw !! k) in
      if JS.truthy v then v else first_truthy raw ks dflt
  end.

(** The value of the first alias key that is present in the record,
    whatever its value: the resolution rule in the words of the
    specification. *)
Fixpoint first_present (raw : gmap string val) (keys : list string) (dflt : val) : val :=
  match keys with
  | [] => dflt
  | k :: ks =>
      match raw !! k with
      | Some v => v
      | None => first_present raw ks dflt
      end
  end.

Definition resolve_with
    (scan : gmap string val -> list string -> val -> val)
    (dflt : CanonicalField -> val) (raw : gmap string val) : DictionaryItem :=
  {| fieldName := scan raw (aliases FieldName) (dflt FieldName);
     description := scan raw (aliases Description) (dflt Description);
     dnbCode := scan raw (aliases DnbCode) (dflt DnbCode);
     type := scan raw (aliases DataType) (dflt DataType);
     length := scan raw (aliases Length) (dflt Length) |}.

(** The canonical record whose every field is its default. *)
Definition defaults : DictionaryItem := resolve_with first_truthy default_of ∅.

(** The default-filled record in which every default is the empty
    string. *)
Definition empty_defaults : DictionaryItem :=
  resolve_with first_present (fun _ => VStr "") ∅.

(** The key-value content of a row; a value that is no key-value
    structure has none. *)
Definition own_record (item : val) : gmap string val :=
  match item with
  | VObj raw => raw
  | _ => ∅
  end.

(** Two rows used below: [{"Field Name": "", "Element Name": "X"}] and
    [{"Field Name": "X", "Data Type": "T"}]. *)
Definition row_empty_first : gmap string val :=
  <["Field Name" := VStr ""]> (<["Element Name" := VStr "X"]> ∅).

Definition row_X_T : gmap string val :=
  <["Field Name" := VStr "X"]> (<["Data Type" := VStr "T"]> ∅).

(** Every raw key the resolver reads. *)
Definition all_aliases : list string :=
  aliases FieldName ++ aliases Description ++ aliases DnbCode
  ++ aliases DataType ++ aliases Length.



End Explorer.

(** ** Nodes and edges of [@xyflow/react] *)

(** [Node]: the members the program touches and, in [other], the
    remaining optional ones, which only ever travel through a spread. *)
Module Node.
Record t := {
  id : string;
  position : val;
  data : gmap string val;
  type : val;
  style : val;
  other : gmap string val;
}.
End Node.

(** [Edge]; [label], [style] and [labelStyle] read as [undefined] when
    the edge does not carry them, [data] is optional. *)
Module Edge.
Record t := {
  id : string;
  source : string;
  target : string;
  label : val;
  data : option (gmap string val);
  style : val;
  labelStyle : val;
  other : gmap string val;
}.
End Edge.

(** [Connection]: what the user draws between two handles. *)
Record Connection := {
  conn_source : string;
  conn_target : string;
  sourceHandle : option string;
  targetHandle : option string;
}.

(** The functions of the graph library the component calls; their code
    is not part of this repository.  [NodeChange] and [EdgeChange] are
    the change descriptions the canvas emits (drag, select, remove). *)
Class ReactFlow := {
  NodeChange : Type;
  EdgeChange : Type;
  addEdge : Connection -> list Edge.t -> list Edge.t;
  applyNodeChanges : list NodeChange -> list Node.t -> list Node.t;
  applyEdgeChanges : list EdgeChange -> list Edge.t -> list Edge.t;
}.

(** A stand-in for the library in the worked examples: a change moves
    the node of a given id or removes the edge of a given id, and a
    connection is appended as a new edge. *)
Definition example_reactflow : ReactFlow :=
  {| NodeChange := string * val;
     EdgeChange := string;
     addEdge := fun c eds =>
       eds ++ [ {| Edge.id := "xy-edge__" +:+ conn_source c +:+ "-" +:+ conn_target c;
                   Edge.source := conn_source c; Edge.target := conn_target c;
                   Edge.label := VUndef; Edge.data := None;
                   Edge.style := VUndef; Edge.labelStyle := VUndef;
                   Edge.other := ∅ |} ];
     applyNodeChanges := fun chs nds =>
       fold_left (fun nds '(i, pos) =>
         map (fun n => if String.eqb (Node.id n) i
                       then {| Node.id := Node.id n; Node.position := pos;
                               Node.data := Node.data n; Node.type := Node.type n;
                               Node.style := Node.style n; Node.other := Node.other n |}
                       else n) nds) chs nds;
     applyEdgeChanges := fun chs eds =>
       fold_left (fun eds i =>
         filter (fun e => negb (String.eqb (Edge.id e) i)) eds) chs eds |}.

(** ** [components/GraphViz.tsx] *)

Module GraphViz.

Section Component.
Context {R : Runtime} {F : ReactFlow}.

(** [edge.data && edge.data.ownership_percentage] *)
Definition ownership (edge : Edge.t) : val :=
  match Edge.data edge with
  | None => VUndef
  | Some d => default VUndef (d !! "ownership_percentage")
  end.

(** The arrow function of [processEdges] (lines 27-36; the first version
    of the component has the same body):
<<
  ...edge,
  label: edge.data && edge.data.ownership_percentage
         ? `${edge.data.ownership_percentage}%`
         : edge.label || '',
  style: { stroke: '#555' },
  labelStyle: { fill: '#333', fontWeight: 700 },
>> *)
Definition processEdge (edge : Edge.t) : Edge.t :=
  {| Edge.id := Edge.id edge;
     Edge.source := Edge.source edge;
     Edge.target := Edge.target edge;
     Edge.label :=
       if JS.truthy (ownership edge)
       then VStr (JS.ToString (ownership edge) +:+ "%")
       else JS.or (Edge.label edge) (VStr "");
     Edge.data := Edge.data edge;
     Edge.style := VObj {[ "stroke" := VStr "#555" ]};
     Edge.labelStyle :=
       VObj (<["fill" := VStr "#333"]> {[ "fontWeight" := VNum (Num.of_Z 700) ]});
     Edge.other := Edge.other edge |}.

Definition processEdges (edges : list Edge.t) : list Edge.t :=
  map processEdge edges.

(** The three encodings of the heat map and the neutral one. *)
Definition neutral_style : gmap string val :=
  <["background" := VStr "#fff"]>
  (<["border" := VStr "1px solid #777"]>
  (<["width" := VNum (Num.of_Z 180)]>
  (<["padding" := VNum (Num.of_Z 10)]>
  {[ "borderRadius" := VNum (Num.of_Z 5) ]}))).

Definition high_style : gmap string val :=
  <["background" := VStr "#fee2e2"]> (<["border" := VStr "2px solid #ef4444"]> neutral_style).

Definition medium_style : gmap string val :=
  <["background" := VStr "#fef3c7"]> (<["border" := VStr "2px solid #f59e0b"]> neutral_style).

Definition low_style : gmap string val :=
  <["background" := VStr "#dcfce7"]> (<["border" := VStr "2px solid #22c55e"]> neutral_style).

(** [node.data?.risk_score] *)
Definition risk_score (node : Node.t) : val :=
  default VUndef (Node.data node !! "risk_score").

(** Lines 41-48:
<<
  let style = { background: '#fff', border: '1px solid #777', ... };
  if (isRiskMode) {
    const score = (node.data?.risk_score as number) || 0;
    if (score > 75) style = { ...style, <red> };
    else if (score > 50) style = { ...style, <yellow> };
    else style = { ...style, <green> };
  }
>> *)
Definition node_style (node : Node.t) (isRiskMode : bool) : gmap string val :=
  if isRiskMode then
    let score := JS.or (risk_score node) (VNum (Num.of_Z 0)) in
    if JS.gt score (Num.of_Z 75) then high_style
    else if JS.gt score (Num.of_Z 50) then medium_style
    else low_style
  else neutral_style.

(** Lines 55-64, the JSX of the label:
<<
  <div>
    <div className="font-bold">{String(node.data.name || node.id)}</div>
    {isRiskMode && (
      <div className="text-xs mt-1">
        Risk Score: {node.data.risk_score || 'N/A'}
      </div>
    )}
  </div>
>> *)
Definition name_line (node : Node.t) : val :=
  VElem "div" {[ "className" := VStr "font-bold" ]}
    [VStr (JS.ToString
             (JS.or (default VUndef (Node.data node !! "name")) (VStr (Node.id node))))].

Definition risk_line (node : Node.t) (isRiskMode : bool) : val :=
  if isRiskMode
  then VElem "div" {[ "className" := VStr "text-xs mt-1" ]}
         [VStr "Risk Score: "; JS.or (risk_score node) (VStr "N/A")]
  else VBool false.

Definition node_label (node : Node.t) (isRiskMode : bool) : val :=
  VElem "div" ∅ [name_line node; risk_line node isRiskMode].

(** The arrow function of [processNodes]:
    [{ ...node, style, data: { ...node.data, label: <div>...</div> } }] *)
Definition processNode (isRiskMode : bool) (node : Node.t) : Node.t :=
  {| Node.id := Node.id node;
     Node.position := Node.position node;
     Node.data := <["label" := node_label node isRiskMode]> (Node.data node);
     Node.type := Node.type node;
     Node.style := VObj (node_style node isRiskMode);
     Node.other := Node.other node |}.

Definition processNodes (nodes : list Node.t) (isRiskMode : bool) : list Node.t :=
  map (processNode isRiskMode) nodes.

(** *** The component as a state machine

    [props] are the arrays the parent passes; [riskMode], [nodes] and
    [edges] are the component's own state ([useState], [useNodesState],
    [useEdgesState]). *)
Record Props := {
  initialNodes : list Node.t;
  initialEdges : list Edge.t;
}.

Record State := {
  props : Props;
  riskMode : bool;
  nodes : list Node.t;
  edges : list Edge.t;
}.

(** The body of the effect (lines 73-76):
    [setNodes(processNodes(initialNodes, riskMode));
     setEdges(processEdges(initialEdges));] *)
Definition effect (st : State) : State :=
  {| props := props st;
     riskMode := riskMode st;
     nodes := processNodes (initialNodes (props st)) (riskMode st);
     edges := processEdges (initialEdges (props st)) |}.

(** First render: [riskMode = false], empty working copies, then the
    effect. *)
Definition mount (p : Props) : State :=
  effect {| props := p; riskMode := false; nodes := []; edges := [] |}.

(** [onConnect]: [setEdges((eds) => addEdge(params, eds))] *)
Definition onConnect (params : Connection) (st : State) : State :=
  {| props := props st; riskMode := riskMode st; nodes := nodes st;
     edges := addEdge params (edges st) |}.

(** [onNodesChange] and [onEdgesChange] of [useNodesState] and
    [useEdgesState]: the changes are applied to the working copy. *)
Definition onNodesChange (changes : list NodeChange) (st : State) : State :=
  {| props := props st; riskMode := riskMode st;
     nodes := applyNodeChanges changes (nodes st); edges := edges st |}.

Definition onEdgesChange (changes : list EdgeChange) (st : State) : State :=
  {| props := props st; riskMode := riskMode st; nodes := nodes st;
     edges := applyEdgeChanges changes (edges st) |}.

(** The check box: [setRiskMode(e.target.checked)].  Setting the value
    the state already has is no update; a changed [riskMode] is a
    dependency of the effect, which runs again. *)
Definition setRiskMode (checked : bool) (st : State) : State :=
  if Bool.eqb checked (riskMode st) then st
  else effect {| props := props st; riskMode := checked;
                 nodes := nodes st; edges := edges st |}.

(** The parent hands over new arrays: the effect runs again.  (A render
    of the parent that passes the arrays it passed before changes no
    dependency and is not an event of this machine.) *)
Definition receiveProps (p : Props) (st : State) : State :=
  effect {| props := p; riskMode := riskMode st;
            nodes := nodes st; edges := edges st |}.

(** What the user can do on the canvas and with the check box. *)
Inductive Event :=
| Connect (params : Connection)
| NodesChange (changes : list NodeChange)
| EdgesChange (changes : list EdgeChange)
| SetRiskMode (checked : bool).

Definition handle (ev : Event) (st : State) : State :=
  match ev with
  | Connect params => onConnect params st
  | NodesChange changes => onNodesChange changes st
  | EdgesChange changes => onEdgesChange changes st
  | SetRiskMode checked => setRiskMode checked st
  end.

End Component.

(** The edge carries no ownership percentage that counts: no [data], no
    such member, or the number [0] (or [NaN]). *)
Definition no_ownership (edge : Edge.t) : Prop :=
  Edge.data edge = None
  \/ exists d, Edge.data edge = Some d
       /\ (d !! "ownership_percentage" = None
           \/ exists x, d !! "ownership_percentage" = Some (VNum x)
                        /\ Num.falsy x = true).

(** The node's data carries no name, or an empty one. *)
Definition unnamed (node : Node.t) : Prop :=
  Node.data node !! "name" = None \/ Node.data node !! "name" = Some (VStr "").

(** Nodes and edges for the worked examples. *)
Definition plain_node (id : string) (data : gmap string val) : Node.t :=
  {| Node.id := id; Node.position := VUndef; Node.data := data;
     Node.type := VUndef; Node.style := VUndef; Node.other := ∅ |}.

Definition scored_node (score : Z) : Node.t :=
  plain_node "n" (<["name" := VStr "Acme"]> {[ "risk_score" := VNum (Num.of_Z score) ]}).

Definition plain_edge (label : val) (data : option (gmap string val)) : Edge.t :=
  {| Edge.id := "e"; Edge.source := "a"; Edge.target := "b";
     Edge.label := label; Edge.data := data;
     Edge.style := VUndef; Edge.labelStyle := VUndef; Edge.other := ∅ |}.

Definition owned_edge (label : val) (percentage : Z) : Edge.t :=
  plain_edge label (Some {[ "ownership_percentage" := VNum (Num.of_Z percentage) ]}).

(** The five scores of the specification's boundary example. *)
Definition five_scores : list Node.t :=
  map scored_node [76; 75; 51; 50; 0].

(** The node's data carries an array as its name. *)
Definition array_named (node : Node.t) : Prop :=
  exists l, Node.data node !! "name" = Some (VArr l).

(** The node with another [data] object. *)
Definition with_data (node : Node.t) (d : gmap string val) : Node.t :=
  {| Node.id := Node.id node; Node.position := Node.position node;
     Node.data := d; Node.type := Node.type node;
     Node.style := Node.style node; Node.other := Node.other node |}.

End GraphViz.

(** ** [lib/api.ts] and [app/page.tsx] *)

Module Home.

(** The body of [GET /graph/{id}] as [handleSearch] reads it: JSON
    [null] ([None]) or an object whose [nodes] and [edges] may be
    missing. *)
Record GraphPayload := {
  payload_nodes : option (list Node.t);
  payload_edges : option (list Edge.t);
}.

Abbreviation GraphOutcome := (Fetch.outcome (option GraphPayload)).

(** [fetchEntityGraph]:
<<
  const response = await fetch(`${API_BASE_URL}/graph/${entityId}`);
  if (!response.ok) throw new Error('Failed to fetch graph data');
  return response.json();
>> *)
Definition fetchEntityGraph {A} (o : Fetch.outcome A) : result A :=
  match o with
  | Fetch.Rejected => Throw TypeError
  | Fetch.Response ok body =>
      if negb ok then Throw (Error "Failed to fetch graph data")
      else match body with
           | None => Throw SyntaxError
           | Some d => Ok d
           end
  end.

Record State := {
  entityId : string;
  nodes : list Node.t;
  edges : list Edge.t;
  loading : bool;
  error : string;
}.

Definition initial : State :=
  {| entityId := "804735132"; nodes := []; edges := [];
     loading := false; error := "" |}.

(** [onChange={(e) => setEntityId(e.target.value)}] *)
Definition setEntityId (s : string) (st : State) : State :=
  {| entityId := s; nodes := nodes st; edges := edges st;
     loading := loading st; error := error st |}.

Definition xy (x y : Z) : val :=
  VObj (<["x" := VNum (Num.of_Z x)]> {[ "y" := VNum (Num.of_Z y) ]}).

Definition mock_node (id : string) (x y : Z) (label : string) (type : val) : Node.t :=
  {| Node.id := id; Node.position := xy x y;
     Node.data := {[ "label" := VStr label ]};
     Node.type := type; Node.style := VUndef; Node.other := ∅ |}.

Definition mock_edge (id source target label : string) : Edge.t :=
  {| Edge.id := id; Edge.source := source; Edge.target := target;
     Edge.label := VStr label; Edge.data := None;
     Edge.style := VUndef; Edge.labelStyle := VUndef; Edge.other := ∅ |}.

(** "Fallback mock data for demo purposes if backend is down" *)
Definition mock_nodes : list Node.t :=
  [ mock_node "1" 0 0 "Gorman Mfg" (VStr "input");
    mock_node "2" 0 100 "Subsidiary A" VUndef;
    mock_node "3" 200 0 "Subsidiary B" VUndef ].

Definition mock_edges : list Edge.t :=
  [ mock_edge "e1-2" "1" "2" "OWNS";
    mock_edge "e1-3" "1" "3" "PARTNER" ].

(** [handleSearch] up to its [await]: [setLoading(true); setError('')]. *)
Definition handleSearch_start (st : State) : State :=
  {| entityId := entityId st; nodes := nodes st; edges := edges st;
     loading := true; error := "" |}.

(** The [try] block after the [await]: [data.nodes] throws on [null].
<<
  setNodes(data.nodes || []);
  setEdges(data.edges || []);
>> *)
Definition read_payload (data : option GraphPayload)
  : result (list Node.t * list Edge.t) :=
  match data with
  | None => Throw TypeError
  | Some d => Ok (default [] (payload_nodes d), default [] (payload_edges d))
  end.

(** [handleSearch] from the [await] on: [try], [catch] and [finally]. *)
Definition handleSearch_finish (st : State) (o : GraphOutcome) : State :=
  JS.try_catch
    (JS.bind (fetchEntityGraph o) (fun data =>
     JS.bind (read_payload data) (fun '(ns, es) =>
       Ok {| entityId := entityId st; nodes := ns; edges := es;
             loading := false; error := error st |})))
    (fun _ =>
       {| entityId := entityId st; nodes := mock_nodes; edges := mock_edges;
          loading := false;
          error := "Failed to fetch graph data. Is the backend running?" |}).

(** The props [<GraphViz initialNodes={nodes} initialEdges={edges} />]. *)
Definition graph_props (st : State) : GraphViz.Props :=
  {| GraphViz.initialNodes := nodes st; GraphViz.initialEdges := edges st |}.

End Home.

(** ** [components/EntityDetails.tsx] *)

Module EntityDetails.

(** [interface LineageInfo] *)
Record LineageInfo := {
  source : string;
  payload_id : string;
  confidence : number;
  file_name : option string;
  json_path : option string;
}.

(** [interface EntityData]; a value the record lacks reads as
    [undefined], the lineage map is read through [?.]. *)
Record EntityData := {
  name : val;
  legal_name : val;
  revenue_usd : val;
  employee_count : val;
  jurisdiction_code : val;
  lineage_metadata : option (gmap string LineageInfo);
}.

Record State := {
  data : option EntityData;
  loading : bool;
  error : string;
}.

Definition initial : State := {| data := None; loading := false; error := "" |}.

(** [fetchData] up to its first [await]. *)
Definition fetchData_start (st : State) : State :=
  {| data := data st; loading := true; error := "" |}.

(** [fetchData] from the [await] on (lines 157-167); the body is JSON
    [null] ([None]) or a record.
<<
  const res = await fetch(...);
  if (!res.ok) throw new Error('Failed to fetch entity details');
  const json = await res.json();
  setData(json);
>> *)
Definition fetchData_finish (st : State)
    (o : Fetch.outcome (option EntityData)) : State :=
  JS.try_catch
    (JS.bind
       (match o with
        | Fetch.Rejected => Throw TypeError
        | Fetch.Response ok body =>
            if negb ok then Throw (Error "Failed to fetch entity details")
            else match body with
                 | None => Throw SyntaxError
                 | Some json => Ok json
                 end
        end)
       (fun json => Ok {| data := json; loading := false; error := error st |}))
    (fun _ => {| data := data st; loading := false;
                 error := "Could not load entity details." |}).

Section Render.
Context {R : Runtime}.

(** [<p><strong>caption</strong> {...}</p>] *)
Definition line (props : gmap string val) (caption : string) (content : list val) : val :=
  VElem "p" props (VElem "strong" ∅ [VStr caption] :: VStr " " :: content).

(** [{field && <p className="truncate" title={field}>
       <strong>caption</strong> {field}</p>}] *)
Definition optional_line (caption : string) (field : option string) : val :=
  match field with
  | None => VUndef
  | Some s =>
      if JS.truthy (VStr s)
      then line (<["className" := VStr "truncate"]> {[ "title" := VStr s ]})
                caption [VStr s]
      else VStr s
  end.

(** The tooltip (lines 188-196):
<<
  {lineage && (
    <div className="...">
      <p><strong>Source:</strong> {lineage.source}</p>
      <p><strong>Payload ID:</strong> {lineage.payload_id.substring(0, 8)}...</p>
      <p><strong>Confidence:</strong> {(lineage.confidence * 100).toFixed(0)}%</p>
      {lineage.file_name && <p ...><strong>File:</strong> {lineage.file_name}</p>}
      {lineage.json_path && <p ...><strong>Path:</strong> {lineage.json_path}</p>}
    </div>
  )}
>> *)
Definition tooltip_class : string :=
  "absolute left-0 bottom-full mb-2 w-64 p-2 bg-black text-white text-xs rounded shadow-lg opacity-0 group-hover:opacity-100 transition-opacity z-10 pointer-events-none".

Definition tooltip (lineage : option LineageInfo) : val :=
  match lineage with
  | None => VUndef
  | Some l =>
      VElem "div" {[ "className" := VStr tooltip_class ]}
        [ line ∅ "Source:" [VStr (source l)];
          line ∅ "Payload ID:" [VStr (String.substring 0 8 (payload_id l)); VStr "..."];
          line ∅ "Confidence:"
            [VStr (JS.toFixed0 (Num.mul (confidence l) (Num.of_Z 100))); VStr "%"];
          optional_line "File:" (file_name l);
          optional_line "Path:" (json_path l) ]
  end.

(** [const lineage = data.lineage_metadata?.[fieldKey];] *)
Definition lineage_of (d : EntityData) (fieldKey : string) : option LineageInfo :=
  match lineage_metadata d with
  | None => None
  | Some lm => lm !! fieldKey
  end.

(** [renderField(label, fieldKey, value)] *)
Definition renderField (d : EntityData) (label fieldKey : string) (value : val) : val :=
  VElem "div" {[ "className" := VStr "mb-2 group relative" ]}
    [ VElem "span" {[ "className" := VStr "font-semibold text-gray-700" ]}
        [VStr label; VStr ": "];
      VElem "span"
        {[ "className" := VStr "text-gray-900 border-b border-dotted border-gray-400 cursor-help" ]}
        [ if JS.nullish value then VStr "N/A" else VStr (JS.toLocaleString value) ];
      tooltip (lineage_of d fieldKey) ].

(** The five fields of the golden record card (lines 205-209). *)
Definition fields (d : EntityData) : list val :=
  [ renderField d "Name" "name" (name d);
    renderField d "Legal Name" "legal_name" (legal_name d);
    renderField d "Jurisdiction" "jurisdiction_code" (jurisdiction_code d);
    renderField d "Revenue (USD)" "revenue_usd" (revenue_usd d);
    renderField d "Employees" "employee_count" (employee_count d) ].

(** The card (lines 201-215). *)
Definition card (d : EntityData) : val :=
  VElem "div" {[ "className" := VStr "bg-white p-4 rounded shadow border border-gray-200" ]}
    (VElem "h2" {[ "className" := VStr "text-xl font-bold mb-4 border-b pb-2" ]}
       [VStr "Golden Record"]
     :: fields d
     ++ [ VElem "div" {[ "className" := VStr "mt-4 text-xs text-gray-400" ]}
            [VStr "* Hover over fields to see data lineage."] ]).

(** What the component returns (lines 173-175, then the card):
<<
  if (loading) return <div ...>Loading details...</div>;
  if (error) return <div ...>{error}</div>;
  if (!data) return null;
>> *)
Definition render (st : State) : val :=
  if loading st
  then VElem "div" {[ "className" := VStr "text-sm text-gray-500" ]}
         [VStr "Loading details..."]
  else if JS.truthy (VStr (error st))
  then VElem "div" {[ "className" := VStr "text-sm text-red-500" ]}
         [VStr (error st)]
  else match data st with
       | None => VNull
       | Some d => card d
       end.

End Render.

(** *** The panel over time

    The effect of lines 151-171 runs on mount and whenever the
    [entityId] prop changes, and returns at once when the id is empty.
    Nothing cancels or orders the requests it starts: [pending] holds
    the ids of the [fetchData] calls suspended at their [await], and a
    response may arrive for any of them.  [server] is what the back end
    answers for an id. *)
Section Panel.
Context (server : string -> Fetch.outcome (option EntityData)).

Record Panel := {
  entityId : string;
  state : State;
  pending : list string;
}.

Definition runEffect (id : string) (st : State) (pend : list string) : Panel :=
  if String.eqb id ""
  then {| entityId := id; state := st; pending := pend |}
  else {| entityId := id; state := fetchData_start st; pending := pend ++ [id] |}.

Definition mount (id : string) : Panel := runEffect id initial [].

Inductive PanelEvent :=
| SetEntityId (id : string)
| Arrive (i : nat).

Definition panel_exec (pn : Panel) (ev : PanelEvent) : option Panel :=
  match ev with
  | SetEntityId id =>
      if String.eqb id (entityId pn) then Some pn
      else Some (runEffect id (state pn) (pending pn))
  | Arrive i =>
      match pending pn !! i with
      | None => None
      | Some id =>
          Some {| entityId := entityId pn;
                  state := fetchData_finish (state pn) (server id);
                  pending := delete i (pending pn) |}
      end
  end.

Fixpoint panel_run (pn : Panel) (evs : list PanelEvent) : option Panel :=
  match evs with
  | [] => Some pn
  | ev :: evs' =>
      match panel_exec pn ev with
      | Some pn' => panel_run pn' evs'
      | None => None
      end
  end.

End Panel.

(** The lineage entry of the specification's seventh testable property:
    [{source: "ERP", payload_id: "abcdefgh1234", confidence: 0.87}]. *)
Definition erp_lineage : LineageInfo :=
  {| source := "ERP"; payload_id := "abcdefgh1234";
     confidence := Num.div (Num.of_Z 87) (Num.of_Z 100);
     file_name := None; json_path := None |}.

Definition erp_entity : EntityData :=
  {| name := VStr "Gorman Mfg"; legal_name := VStr "Gorman Manufacturing Co";
     revenue_usd := VNum (Num.of_Z 1500000); employee_count := VNum (Num.of_Z 120);
     jurisdiction_code := VStr "US";
     lineage_metadata := Some {[ "revenue_usd" := erp_lineage ]} |}.

End EntityDetails.

(** ** [components/ChatPanel.tsx] *)

Module ChatPanel.

Inductive Role := user | assistant.

(** [interface Message]; the content of an answer is whatever the body
    held under [response]. *)
Record Message := {
  role : Role;
  content : val;
}.

Record State := {
  isOpen : bool;
  messages : list Message;
  inputValue : string;
  loading : bool;
}.

Definition greeting : Message :=
  {| role := assistant;
     content := VStr "Hello! I am the Entity Nexus Agent. I can help you find entities and explain their lineage." |}.

Definition error_notice : Message :=
  {| role := assistant;
     content := VStr "Error: Please check backend logs / API Key." |}.

Definition initial : State :=
  {| isOpen := false; messages := [greeting]; inputValue := ""; loading := false |}.

(** [onChange={(e) => setInputValue(e.target.value)}] *)
Definition setInputValue (s : string) (st : State) : State :=
  {| isOpen := isOpen st; messages := messages st;
     inputValue := s; loading := loading st |}.

(** [setIsOpen(!isOpen)] and [setIsOpen(false)] *)
Definition setIsOpen (b : bool) (st : State) : State :=
  {| isOpen := b; messages := messages st;
     inputValue := inputValue st; loading := loading st |}.

(** [setMessages(prev => [...prev, m])] *)
Definition push (m : Message) (st : State) : State :=
  {| isOpen := isOpen st; messages := messages st ++ [m];
     inputValue := inputValue st; loading := loading st |}.

Definition setLoading (b : bool) (st : State) : State :=
  {| isOpen := isOpen st; messages := messages st;
     inputValue := inputValue st; loading := b |}.

(** [handleSubmit] up to its [await] (lines 28-35); the boolean tells
    whether the request is sent.
<<
  if (!inputValue.trim() || loading) return;
  const userMsg = inputValue.trim();
  setInputValue('');
  setMessages(prev => [...prev, { role: 'user', content: userMsg }]);
  setLoading(true);
>> *)
Definition handleSubmit_start (st : State) : State * bool :=
  if negb (JS.truthy (VStr (JS.trim (inputValue st)))) || loading st
  then (st, false)
  else
    let userMsg := JS.trim (inputValue st) in
    (setLoading true
       (push {| role := user; content := VStr userMsg |} (setInputValue "" st)),
     true).

(** The request of lines 38-48: a rejected [fetch], a status that is
    not ok and a body that is no JSON all throw. *)
Definition post (o : Fetch.outcome val) : result val :=
  match o with
  | Fetch.Rejected => Throw TypeError
  | Fetch.Response ok body =>
      if negb ok then Throw (Error "Failed")
      else match body with
           | None => Throw SyntaxError
           | Some d => Ok d
           end
  end.

(** [handleSubmit] from the [await] on: [try], [catch], [finally].
<<
  try {
    ...
    const data = await res.json();
    setMessages(prev => [...prev, { role: 'assistant', content: data.response }]);
  } catch (err) {
    setMessages(prev => [...prev, { role: 'assistant', content: "Error: ..." }]);
  } finally {
    setLoading(false);
  }
>>
    [data.response] stands in the body of the updater, which React calls
    when it renders, not inside the [try]: the [catch] only sees what
    the request throws.  The result is the state the queued updates
    give; [Throw] means that the updater throws while React renders. *)
Definition handleSubmit_finish (st : State) (o : Fetch.outcome val) : result State :=
  match post o with
  | Ok data =>
      JS.bind (JS.get data "response") (fun r =>
        Ok (setLoading false (push {| role := assistant; content := r |} st)))
  | Throw _ => Ok (setLoading false (push error_notice st))
  end.

(** What React accepts as a child ([{msg.content}], line 73): anything
    but a plain object, inside arrays too. *)
Fixpoint valid_child (v : val) : bool :=
  match v with
  | VObj _ => false
  | VArr l =>
      (fix all (l : list val) : bool :=
         match l with
         | [] => true
         | x :: l' => valid_child x && all l'
         end) l
  | VUndef | VNull | VBool _ | VNum _ | VStr _ | VElem _ _ _ => true
  end.

(** The component renders without throwing.  The messages are mapped to
    elements only while the panel is open ([isOpen && (...)], line 59). *)
Definition renders (st : State) : bool :=
  negb (isOpen st) || forallb (fun m => valid_child (content m)) (messages st).

(** *** The panel over time

    [requests] counts the [handleSubmit] calls suspended at their
    [await].  No error boundary surrounds the component: when an updater
    or the rendering throws, React removes the tree, and [mounted] is
    cleared; [state] is then the last state that was rendered. *)
Record Panel := {
  state : State;
  requests : nat;
  mounted : bool;
}.

Definition start : Panel := {| state := initial; requests := 0; mounted := true |}.

(** React applies the queued updates and renders the result. *)
Definition commit (pn : Panel) (next : result State) (reqs : nat) : Panel :=
  match next with
  | Ok st =>
      if renders st
      then {| state := st; requests := reqs; mounted := true |}
      else {| state := state pn; requests := reqs; mounted := false |}
  | Throw _ => {| state := state pn; requests := reqs; mounted := false |}
  end.

Inductive Event :=
| Type_ (s : string)
| Toggle
| Close
| Submit
| Answer (o : Fetch.outcome val).

(** One event.  A panel that is not mounted offers nothing to type
    into or click on; an answer that arrives for it sets state on a
    component that is gone, which does nothing. *)
Definition exec (pn : Panel) (ev : Event) : option Panel :=
  match ev with
  | Answer o =>
      match requests pn with
      | O => None
      | S n =>
          if mounted pn
          then Some (commit pn (handleSubmit_finish (state pn) o) n)
          else Some {| state := state pn; requests := n; mounted := false |}
      end
  | _ =>
      if mounted pn
      then
        match ev with
        | Type_ s => Some (commit pn (Ok (setInputValue s (state pn))) (requests pn))
        | Toggle =>
            Some (commit pn (Ok (setIsOpen (negb (isOpen (state pn))) (state pn)))
                    (requests pn))
        | Close => Some (commit pn (Ok (setIsOpen false (state pn))) (requests pn))
        | _ =>
            let '(st, sent) := handleSubmit_start (state pn) in
            Some (commit pn (Ok st) (if sent then S (requests pn) else requests pn))
        end
      else None
  end.

Fixpoint run (pn : Panel) (evs : list Event) : option Panel :=
  match evs with
  | [] => Some pn
  | ev :: evs' =>
      match exec pn ev with
      | Some pn' => run pn' evs'
      | None => None
      end
  end.

(** The roles of a log in which, after the greeting, every question is
    followed by one answer, the last question being still open or not. *)
Fixpoint exchanges (n : nat) : list Role :=
  match n with
  | O => []
  | S n' => user :: assistant :: exchanges n'
  end.

Definition log_shape (n : nat) (open : bool) : list Role :=
  assistant :: exchanges n ++ (if open then [user] else []).

(** The log is the greeting and complete exchanges, with one open
    question exactly while [loading] is set; a request is in flight only
    while [loading] is set, and in a mounted panel exactly one is, and
    the state renders. *)
Definition well_formed (pn : Panel) : Prop :=
  (exists n, map role (messages (state pn)) = log_shape n (loading (state pn)))
  /\ (requests pn <= (if loading (state pn) then 1 else 0))%nat
  /\ (mounted pn = true ->
      requests pn = (if loading (state pn) then 1%nat else 0%nat)
      /\ renders (state pn) = true).

(** The open panel after the question ["hello"] has been sent. *)
Definition asked : Panel :=
  {| state := {| isOpen := true;
                 messages := [greeting; {| role := user; content := VStr "hello" |}];
                 inputValue := ""; loading := true |};
     requests := 1; mounted := true |}.

End ChatPanel.

(** ** The page as a whole: one viewing session

    [home] is the state of [Home], [graph] that of the [GraphViz] it
    renders, [inflight] the entity ids of the [handleSearch] calls that
    are suspended at their [await].  Responses may arrive in any order. *)
Module Session.

Section Session.
Context {R : Runtime} {F : ReactFlow}.

Record Page := {
  home : Home.State;
  graph : GraphViz.State;
  inflight : list string;
}.

Definition initial : Page :=
  {| home := Home.initial;
     graph := GraphViz.mount (Home.graph_props Home.initial);
     inflight := [] |}.

Inductive Event :=
| TypeId (s : string)
| ClickAnalyze
| Respond (i : nat) (o : Home.GraphOutcome)
| OnGraph (ev : GraphViz.Event).

(** One event of the session; [None] when the event cannot happen: the
    Analyze button is [disabled={loading}], and a response needs a
    suspended call (the [i]-th of [inflight]) to resume. *)
Definition exec (pg : Page) (ev : Event) : option Page :=
  match ev with
  | TypeId s =>
      Some {| home := Home.setEntityId s (home pg);
              graph := graph pg; inflight := inflight pg |}
  | ClickAnalyze =>
      if Home.loading (home pg) then None
      else Some {| home := Home.handleSearch_start (home pg);
                   graph := graph pg;
                   inflight := inflight pg ++ [Home.entityId (home pg)] |}
  | Respond i o =>
      match inflight pg !! i with
      | None => None
      | Some _ =>
          let h := Home.handleSearch_finish (home pg) o in
          Some {| home := h;
                  graph := GraphViz.receiveProps (Home.graph_props h) (graph pg);
                  inflight := delete i (inflight pg) |}
      end
  | OnGraph ev =>
      Some {| home := home pg; graph := GraphViz.handle ev (graph pg);
              inflight := inflight pg |}
  end.

Fixpoint run (pg : Page) (evs : list Event) : option Page :=
  match evs with
  | [] => Some pg
  | ev :: evs' =>
      match exec pg ev with
      | Some pg' => run pg' evs'
      | None => None
      end
  end.

Definition is_click (ev : Event) : bool :=
  match ev with
  | ClickAnalyze => true
  | _ => false
  end.

(** At most one [handleSearch] is suspended, and one is exactly while
    [loading] is set: the Analyze button is disabled for that time. *)
Definition one_request (pg : Page) : Prop :=
  if Home.loading (home pg) then exists id, inflight pg = [id]
  else inflight pg = [].

(** The edits of the working copy: a drawn connection, a drag or another
    change on the canvas.  (The check box is a mode switch, not an edit.) *)
Definition is_edit (ev : GraphViz.Event) : bool :=
  match ev with
  | GraphViz.SetRiskMode _ => false
  | _ => true
  end.

End Session.

(** A session for the worked examples: the graph of entity A is loaded,
    the user draws a connection and drags a node, then asks for
    entity B. *)
Definition payload_A : Home.GraphPayload :=
  {| Home.payload_nodes :=
       Some [GraphViz.plain_node "A1" ∅; GraphViz.plain_node "A2" ∅];
     Home.payload_edges := Some [GraphViz.owned_edge VUndef 40] |}.

Definition payload_B : Home.GraphPayload :=
  {| Home.payload_nodes := Some [GraphViz.plain_node "B1" ∅];
     Home.payload_edges := None |}.

Definition ok_response (p : Home.GraphPayload) : Home.GraphOutcome :=
  Fetch.Response true (Some (Some p)).

Definition drawn : Connection :=
  {| conn_source := "A2"; conn_target := "A1";
     sourceHandle := None; targetHandle := None |}.

Definition session_A : list (@Event example_reactflow) :=
  [ TypeId "A"; ClickAnalyze; Respond 0 (ok_response payload_A) ].

Definition session_A_then_B : list (@Event example_reactflow) :=
  session_A ++ [ TypeId "B"; ClickAnalyze ].

Definition session_A_edited_B : list (@Event example_reactflow) :=
  session_A
  ++ [ OnGraph (@GraphViz.Connect example_reactflow drawn);
       OnGraph (@GraphViz.NodesChange example_reactflow [("A1", Home.xy 30 40)]);
       TypeId "B"; ClickAnalyze ].

End Session.

(* ===================================================================== *)
(** * Part II.  Properties                                               *)
(* ===================================================================== *)

Ltac qcompare := vm_compute; first [reflexivity | discriminate].
Ltac conjuncts := repeat match goal with |- _ /\ _ => split end.

(** ** Doubles and the reals they denote *)

Section Numbers.
Import Num.

Lemma digits2_pos_size (m : positive) : digits2_pos m = Pos.size m.
Proof. induction m as [m IH|m IH|]; simpl; congruence. Qed.

Lemma bounded_inv (m : positive) (e : Z) :
  bounded prec emax m e = true ->
  Z.pos m < 2 ^ 53 /\ -1074 <= e <= 971 /\ (-1074 < e -> 2 ^ 52 <= Z.pos m).
Proof.
  unfold bounded, canonical_mantissa, fexp, emin, prec, emax.
  intros H. apply andb_prop in H as [Hc He].
  apply Z.eqb_eq in Hc. apply Z.leb_le in He.
  rewrite digits2_pos_size in Hc.
  pose proof (Pos.size_gt m) as Hgt. pose proof (Pos.size_le m) as Hle.
  apply Pos2Z.pos_lt_pos in Hgt. apply Pos2Z.pos_le_pos in Hle.
  rewrite Pos2Z.inj_pow in Hgt, Hle. 
  set (d := Z.pos (Pos.size m)) in *.
  assert (Hd : 0 < d) by (unfold d; lia).
  assert (Hd53 : d <= 53) by lia.
  repeat split; try lia.
  - eapply Z.lt_le_trans; [exact Hgt|]. apply Z.pow_le_mono_r; lia.
  - intros Hn. assert (d = 53) by lia. 
    replace d with 53 in Hle by lia.
    change (2 ^ 53) with (2 * 2 ^ 52) in Hle. lia.
Qed.

Lemma scaled_lt_of_exp (m1 m2 : positive) (e1 e2 : Z) :
  bounded prec emax m1 e1 = true -> bounded prec emax m2 e2 = true ->
  e1 < e2 -> scaled m1 e1 < scaled m2 e2.
Proof.
  intros H1 H2 Hlt.
  apply bounded_inv in H1 as (Hm1 & He1 & _).
  apply bounded_inv in H2 as (_ & He2 & Hn2).
  assert (Hn2' : 2 ^ 52 <= Z.pos m2) by (apply Hn2; lia). clear Hn2.
  unfold scaled.
  replace (e2 + 1074) with ((e1 + 1074) + 1 + (e2 - e1 - 1)) by lia.
  rewrite (Z.pow_add_r 2 (e1 + 1074 + 1) (e2 - e1 - 1)) by lia.
  rewrite (Z.pow_add_r 2 (e1 + 1074) 1) by lia.
  assert (0 < 2 ^ (e1 + 1074)) by (apply Z.pow_pos_nonneg; lia).
  assert (1 <= 2 ^ (e2 - e1 - 1)) by (apply (Z.pow_le_mono_r 2 0); lia).
  change (2 ^ 53) with (2 * 2 ^ 52) in Hm1. change (2 ^ 1) with 2.
  set (a := 2 ^ (e1 + 1074)) in *. set (b := 2 ^ (e2 - e1 - 1)) in *.
  set (c := 2 ^ 52) in *.
  assert (Z.pos m1 * a < 2 * c * a) by nia.
  assert (c * (a * 2 * b) <= Z.pos m2 * (a * 2 * b)) by nia.
  assert (2 * c * a <= c * (a * 2 * b)) by nia.
  lia.
Qed.

Lemma SFcompare_scaled (m1 m2 : positive) (e1 e2 : Z) :
  bounded prec emax m1 e1 = true -> bounded prec emax m2 e2 = true ->
  SFcompare (S754_finite false m1 e1) (S754_finite false m2 e2)
  = Some (scaled m1 e1 ?= scaled m2 e2).
Proof.
  intros H1 H2. cbn [SFcompare]. f_equal.
  destruct (Z.compare_spec e1 e2) as [Heq|Hlt|Hgt].
  - subst e2. unfold scaled.
    assert (0 < 2 ^ (e1 + 1074)).
    { apply Z.pow_pos_nonneg; [lia|]. apply bounded_inv in H1. lia. }
    rewrite <- Zmult_compare_compat_r by lia.
    rewrite Pos.compare_cont_spec. cbn [Pos.switch_Eq].
    destruct (m1 ?= m2)%positive eqn:E; rewrite <- Pos2Z.inj_compare, E; reflexivity.
  - symmetry. apply Z.compare_lt_iff. now apply scaled_lt_of_exp.
  - symmetry. apply Z.compare_gt_iff. now apply scaled_lt_of_exp.
Qed.

Lemma magnitude_scaled (m : positive) (e : Z) :
  bounded prec emax m e = true ->
  (magnitude m e == scaled m e # Z.to_pos (2 ^ 1074))%Q.
Proof.
  intros H. apply bounded_inv in H as (_ & He & _).
  assert (HP : 0 < 2 ^ 1074) by (apply Z.pow_pos_nonneg; lia).
  unfold magnitude, scaled, Qeq. cbn [Qnum Qden].
  rewrite Z2Pos.id by assumption.
  destruct (Z.leb_spec 0 e).
  - cbn [inject_Z Qnum Qden]. rewrite Z.pow_add_r by lia. lia.
  - cbn [Qnum Qden]. rewrite Z2Pos.id by (apply Z.pow_pos_nonneg; lia).
    rewrite <- Z.mul_assoc, <- Z.pow_add_r by lia.
    replace (e + 1074 + - e) with 1074 by lia. reflexivity.
Qed.

Lemma magnitude_pos (m : positive) (e : Z) : (0 < magnitude m e)%Q.
Proof.
  unfold magnitude. destruct (Z.leb_spec 0 e).
  - change 0%Q with (inject_Z 0). rewrite <- Zlt_Qlt.
    apply Z.mul_pos_pos; [lia|]. apply Z.pow_pos_nonneg; lia.
  - reflexivity.
Qed.

(** [c < x] on doubles is [c < x] on the reals they denote. *)
Lemma ltb_literal_value (c : Z) (mc : positive) (ec : Z) (x : number) (q : Q) :
  of_Z c = S754_finite false mc ec ->
  bounded prec emax mc ec = true ->
  scaled mc ec = c * 2 ^ 1074 ->
  valid x = true -> value x = Some q ->
  ltb (of_Z c) x = true <-> (inject_Z c < q)%Q.
Proof.
  intros Hc Hb Hs Hv Hq. rewrite Hc. unfold ltb, SFltb.
  assert (HP : 0 < 2 ^ 1074) by (apply Z.pow_pos_nonneg; lia).
  assert (Hc0 : 0 < c).
  { assert (0 < scaled mc ec); [|nia].
    unfold scaled. apply Z.mul_pos_pos; [lia|].
    apply Z.pow_pos_nonneg; [lia|]. apply bounded_inv in Hb. lia. }
  destruct x as [s|s| |s m e]; cbn in Hq; try discriminate;
    injection Hq as <-.
  - cbn. split; [discriminate|]. intros H.
    change 0%Q with (inject_Z 0) in H. rewrite <- Zlt_Qlt in H. lia.
  - destruct s.
    + cbn. split; [discriminate|]. intros H.
      pose proof (magnitude_pos m e) as Hm.
      assert (inject_Z 0 < inject_Z c)%Q by (rewrite <- Zlt_Qlt; lia).
      change (inject_Z 0) with 0%Q in *. lra.
    + rewrite SFcompare_scaled by assumption.
      rewrite magnitude_scaled by assumption. rewrite Hs.
      unfold Qlt. cbn [inject_Z Qnum Qden]. rewrite Z2Pos.id by assumption.
      rewrite Z.mul_1_r.
      destruct (Z.compare_spec (c * 2 ^ 1074) (scaled m e));
        split; intros; try discriminate; try reflexivity; lia.
Qed.

Lemma round_half_up_nearest (m : positive) (e : Z) :
  (inject_Z (round_half_up m e) - (1#2) <= magnitude m e
   /\ magnitude m e < inject_Z (round_half_up m e) + (1#2))%Q.
Proof.
  unfold round_half_up, magnitude.
  destruct (Z.leb_spec 0 e) as [He|He].
  - split; lra.
  - set (k := - e). assert (Hk : 0 < k) by (unfold k; lia).
    replace (k - 1 + 1) with k by lia.
    assert (HD : 2 ^ k = 2 * 2 ^ (k - 1)).
    { replace k with (Z.succ (k - 1)) at 1 by lia. apply Z.pow_succ_r. lia. }
    assert (Hh : 0 < 2 ^ (k - 1)) by (apply Z.pow_pos_nonneg; lia).
    set (h := 2 ^ (k - 1)) in *. 
    pose proof (Z.div_mod (Z.pos m + h) (2 ^ k) ltac:(lia)) as Hdm.
    pose proof (Z.mod_pos_bound (Z.pos m + h) (2 ^ k) ltac:(lia)) as Hmb.
    set (n := (Z.pos m + h) / 2 ^ k) in *.
    unfold Qle, Qlt, Qminus, Qplus, Qopp, inject_Z. cbn [Qnum Qden].
    rewrite !Z2Pos.id by lia. 
    rewrite HD in *. split; nia.
Qed.
End Numbers.


(** ** The dictionary resolver *)

Section Resolver.
Import Explorer.

(** On a key-value record every fallback chain of [normalizeItem] is a
    scan of the field's alias list for the first truthy value. *)
Lemma normalizeItem_object (raw : gmap string val) :
  normalizeItem (VObj raw) = Ok (resolve_with first_truthy default_of raw).
Proof.
  unfold normalizeItem, resolve_with, aliases, default_of, first_truthy.
  unfold JS.or_else; cbn [JS.get JS.bind].
  repeat (destruct (JS.truthy _); cbn [JS.bind]); reflexivity.
Qed.

(** The row of the specification's first testable property. *)
Example normalizeItem_row_X_T :
  normalizeItem (VObj row_X_T)
  = Ok {| fieldName := VStr "X"; description := VStr ""; dnbCode := VStr "";
          type := VStr "T"; length := VStr "" |}.
Proof. vm_compute. reflexivity. Qed.

(** C1, as stated, does not hold: presence of a key does not decide.  In
    the row [{"Field Name": "", "Element Name": "X"}] the first alias
    is present with an empty value, and the resolver passes over it. *)
Lemma resolver_first_present_refuted :
  ~ (forall raw : gmap string val,
       normalizeItem (VObj raw) = Ok (resolve_with first_present default_of raw)).
Proof.
  intros H. specialize (H row_empty_first).
  vm_compute in H. discriminate H.
Qed.

(** C1, amended: for every raw dictionary record the resolver gives each
    canonical field the value of the first alias, in the declared order,
    whose value is truthy (an alias that is absent, empty, [0], [null]
    or [false] is passed over), and the field's default when no alias
    has a truthy value; the same row by row for a whole dictionary. *)
Theorem resolver_first_truthy (rows : list (gmap string val)) :
  normalizedDict (map VObj rows)
  = Ok (map (resolve_with first_truthy default_of) rows).
Proof.
  unfold normalizedDict.
  induction rows as [|raw rows IH]; [reflexivity|].
  cbn [map JS.mapM]. rewrite normalizeItem_object, IH. reflexivity.
Qed.

(** C4, as stated, does not hold: [null] makes the resolver throw, and
    the record resolved from [{}] is not the one whose defaults are all
    empty strings. *)
Lemma resolver_total_refuted :
  normalizeItem VNull = Throw TypeError
  /\ normalizeItem (VObj ∅) <> Ok empty_defaults.
Proof.
  split; [reflexivity|].
  vm_compute. discriminate.
Qed.

(** C4, amended: on [null] and [undefined] the resolver throws a
    TypeError; on every other input it returns a canonical record and
    does not throw.  The empty record and every input that is no
    key-value structure (a boolean, a number, a string, an array) give
    the default-filled record, whose [fieldName] is ["Unknown"] and
    whose other fields are empty strings. *)
Theorem resolver_total_except_nullish :
  (forall item : val,
     normalizeItem item
     = if JS.nullish item then Throw TypeError
       else Ok (resolve_with first_truthy default_of (own_record item)))
  /\ resolve_with first_truthy default_of ∅
     = {| fieldName := VStr "Unknown"; description := VStr "";
          dnbCode := VStr ""; type := VStr ""; length := VStr "" |}.
Proof.
  split; [|reflexivity].
  intros [ | |b|x|s|l|raw|tag props children]; try reflexivity.
  apply normalizeItem_object.
Qed.

End Resolver.

Lemma append_empty_r (s : string) : s +:+ "" = s.
Proof.
  induction s as [|c s IH]; [reflexivity|].
  change (String c (s +:+ "") = String c s). now rewrite IH.
Qed.

(** ** The visual encoder *)

Section Encoder.
Context {R : Runtime}.
Import GraphViz.

(** [score > c] for the score of a node that carries a number, against
    the literals of the source. *)
Lemma gt_score_value (c : Z) (mc : positive) (ec : Z) (x : number) (q : Q) :
  Num.of_Z c = S754_finite false mc ec ->
  bounded Num.prec Num.emax mc ec = true ->
  Num.scaled mc ec = c * 2 ^ 1074 ->
  Num.valid x = true -> Num.value x = Some q ->
  JS.gt (JS.or (VNum x) (VNum (Num.of_Z 0))) (Num.of_Z c) = true
  <-> (inject_Z c < q)%Q.
Proof.
  intros Hc Hb Hs Hv Hq. unfold JS.gt, JS.or. cbn [JS.truthy].
  destruct (Num.falsy x) eqn:Hf; cbn [negb JS.ToNumber].
  - destruct x as [s|s| |s m e]; try discriminate.
    cbn in Hq. injection Hq as <-.
    change (Num.of_Z 0) with (S754_zero false).
    apply (ltb_literal_value c mc ec (S754_zero false) 0%Q); auto.
  - now apply (ltb_literal_value c mc ec).
Qed.

(** The four encodings are pairwise different. *)
Lemma encodings_distinct :
  high_style <> medium_style /\ high_style <> low_style
  /\ medium_style <> low_style /\ neutral_style <> high_style
  /\ neutral_style <> medium_style /\ neutral_style <> low_style.
Proof.
  repeat split; intros H;
    apply (f_equal (fun m : gmap string val => m !! "background")) in H;
    vm_compute in H; discriminate H.
Qed.

(** The selection of lines 43-48 on its own. *)
Lemma node_style_thresholds (node : Node.t) :
  node_style node false = neutral_style
  /\ (Node.data node !! "risk_score" = None
      \/ Node.data node !! "risk_score" = Some VNull ->
      node_style node true = low_style)
  /\ (forall (x : number) (q : Q),
        Node.data node !! "risk_score" = Some (VNum x) ->
        Num.valid x = true -> Num.value x = Some q ->
        ((75 < q)%Q -> node_style node true = high_style)
        /\ ((50 < q)%Q /\ (q <= 75)%Q -> node_style node true = medium_style)
        /\ ((q <= 50)%Q -> node_style node true = low_style)).
Proof.
  split; [reflexivity|]. split.
  - intros [Hn|Hn]; unfold node_style, risk_score; rewrite Hn; reflexivity.
  - intros x q Hx Hv Hq.
    pose proof (gt_score_value 75 _ _ x q eq_refl eq_refl eq_refl Hv Hq) as H75.
    pose proof (gt_score_value 50 _ _ x q eq_refl eq_refl eq_refl Hv Hq) as H50.
    unfold node_style, risk_score. rewrite Hx. cbn [default].
    change (inject_Z 75) with 75%Q in H75. change (inject_Z 50) with 50%Q in H50.
    destruct (JS.gt _ (Num.of_Z 75)); destruct (JS.gt _ (Num.of_Z 50)).
    all: repeat split; intros; try reflexivity; exfalso.
    all: try (assert (75 < q)%Q by (now apply H75); lra).
    all: try (assert (50 < q)%Q by (now apply H50); lra).
    all: try (assert (true = false) by (apply H75; lra); discriminate).
    all: try (assert (false = true) by (apply H75; lra); discriminate).
    all: try (assert (false = true) by (apply H50; lra); discriminate).
Qed.

Lemma lookup_map {A B : Type} (f : A -> B) (l : list A) (i : nat) :
  map f l !! i = f <$> l !! i.
Proof.
  revert i. induction l as [|a l IH]; intros [|i]; cbn; try reflexivity. apply IH.
Qed.

(** C2: [processNodes] gives every node of the list, in its place and
    under its id, a style object.  In heat-map mode its fill and border
    are chosen by a three-way threshold on the node's risk score, a
    missing score counting as [0]: above 75 the high-risk encoding,
    above 50 and up to 75 the medium one, up to 50 the low one; in normal
    mode every node gets the one neutral encoding, whatever its score.
    The score is compared as the real number the double denotes. *)
Theorem risk_threshold_encoding (nodes : list Node.t) (i : nat) (node : Node.t) :
  nodes !! i = Some node ->
  length (processNodes nodes false) = length nodes
  /\ length (processNodes nodes true) = length nodes
  /\ (exists shown,
        processNodes nodes false !! i = Some shown
        /\ Node.id shown = Node.id node
        /\ Node.style shown = VObj neutral_style)
  /\ (exists shown,
        processNodes nodes true !! i = Some shown
        /\ Node.id shown = Node.id node
        /\ (Node.data node !! "risk_score" = None
            \/ Node.data node !! "risk_score" = Some VNull ->
            Node.style shown = VObj low_style)
        /\ (forall (x : number) (q : Q),
              Node.data node !! "risk_score" = Some (VNum x) ->
              Num.valid x = true -> Num.value x = Some q ->
              ((75 < q)%Q -> Node.style shown = VObj high_style)
              /\ ((50 < q)%Q /\ (q <= 75)%Q -> Node.style shown = VObj medium_style)
              /\ ((q <= 50)%Q -> Node.style shown = VObj low_style))).
Proof.
  intros Hi. destruct (node_style_thresholds node) as (Hn & Ha & Hx).
  unfold processNodes. rewrite !length_map.
  conjuncts; try reflexivity.
  - exists (processNode false node). rewrite lookup_map, Hi.
    split; [reflexivity|split; [reflexivity|]].
    cbn [processNode Node.style]. now rewrite Hn.
  - exists (processNode true node). rewrite lookup_map, Hi.
    split; [reflexivity|split; [reflexivity|split]].
    + intros H. cbn [processNode Node.style]. now rewrite (Ha H).
    + intros x q H1 H2 H3. destruct (Hx x q H1 H2 H3) as (Hh & Hm & Hl).
      cbn [processNode Node.style].
      conjuncts; intros H; [rewrite (Hh H)|rewrite (Hm H)|rewrite (Hl H)]; reflexivity.
Qed.

(** C3, amended: the label of the derived edge is ["{p}%"] whenever the
    edge carries an ownership percentage [p] other than [0] (and NaN);
    when it carries none, or the percentage [0], the label is the edge's
    own pre-set label if it has one, and the empty string otherwise. *)
Theorem edge_label_rule (edge : Edge.t) :
  (forall (d : gmap string val) (x : number),
     Edge.data edge = Some d ->
     d !! "ownership_percentage" = Some (VNum x) ->
     Num.falsy x = false ->
     Edge.label (processEdge edge) = VStr (numberToString x +:+ "%"))
  /\ (no_ownership edge ->
      forall s : string,
        Edge.label edge = VStr s -> Edge.label (processEdge edge) = VStr s)
  /\ (no_ownership edge ->
      Edge.label edge = VUndef -> Edge.label (processEdge edge) = VStr "").
Proof.
  assert (Hno : no_ownership edge -> JS.truthy (ownership edge) = false).
  { unfold ownership.
    intros [Hd | (d & Hd & [Hk | (x & Hk & Hx)])]; rewrite Hd; [reflexivity| |];
      rewrite Hk; [reflexivity|]. cbn. now rewrite Hx. }
  split; [|split].
  - intros d x Hd Hk Hx. cbn [processEdge Edge.label].
    unfold ownership. rewrite Hd, Hk. cbn. now rewrite Hx.
  - intros H s Hs. cbn [processEdge Edge.label]. rewrite (Hno H), Hs.
    unfold JS.or. cbn. destruct s; reflexivity.
  - intros H Hl. cbn [processEdge Edge.label]. rewrite (Hno H), Hl. reflexivity.
Qed.

(** C7 at the score [0]: in heat-map mode a node whose risk score is
    present and equal to [0] gets the risk line ["Risk Score: N/A"], the
    marker of an absent score, instead of the number. *)
Theorem risk_line_zero_score :
  risk_line (scored_node 0) true
  = VElem "div" {[ "className" := VStr "text-xs mt-1" ]}
      [VStr "Risk Score: "; VStr "N/A"]
  /\ JS.text (risk_line (scored_node 0) true) = "Risk Score: N/A".
Proof. split; reflexivity. Qed.

(** What the risk line does on the other inputs. *)
Lemma risk_line_cases (node : Node.t) :
  risk_line node false = VBool false
  /\ (Node.data node !! "risk_score" = None ->
      JS.text (risk_line node true) = "Risk Score: N/A")
  /\ (forall x : number,
        Node.data node !! "risk_score" = Some (VNum x) ->
        JS.text (risk_line node true)
        = "Risk Score: " +:+ (if Num.falsy x then "N/A" else numberToString x)).
Proof.
  split; [reflexivity|]. unfold risk_line, risk_score. split.
  - intros ->. reflexivity.
  - intros x ->. unfold JS.or. simpl.
    destruct (Num.falsy x); simpl; [reflexivity|].
    now rewrite append_empty_r.
Qed.

(** C10, amended: in both display modes the label of a processed node
    is the name line followed by the risk line; the name line shows the
    node's name, and falls back to the node's id when the data carries
    no name or an empty one, so that a node whose id is not empty and
    whose name is no array is never labelled blank, whatever else the
    name is (a numeric name is printed by the runtime, which prints no
    number as the empty string). *)
Theorem name_line_falls_back_to_id (node : Node.t) (isRiskMode : bool) :
  Node.data (processNode isRiskMode node) !! "label"
  = Some (VElem "div" ∅ [name_line node; risk_line node isRiskMode])
  /\ (unnamed node -> JS.text (name_line node) = Node.id node)
  /\ (forall s : string,
        Node.data node !! "name" = Some (VStr s) -> s <> "" ->
        JS.text (name_line node) = s)
  /\ (~ array_named node ->
      (forall x, Node.data node !! "name" = Some (VNum x) -> numberToString x <> "") ->
      Node.id node <> "" -> JS.text (name_line node) <> "").
Proof.
  assert (Hu : unnamed node -> JS.text (name_line node) = Node.id node).
  { unfold name_line. intros [H|H]; rewrite H; simpl; apply append_empty_r. }
  assert (Hs : forall s, Node.data node !! "name" = Some (VStr s) -> s <> "" ->
                         JS.text (name_line node) = s).
  { intros s H Hne. unfold name_line. rewrite H. unfold JS.or. simpl.
    destruct (String.eqb_spec s ""); [contradiction|].
    simpl. apply append_empty_r. }
  split; [|split; [exact Hu|split; [exact Hs|]]].
  - cbn [processNode Node.data]. now rewrite lookup_insert_eq.
  - intros Harr Hnum Hid. unfold name_line.
    destruct (Node.data node !! "name") as [v|] eqn:H; simpl;
      [|now rewrite append_empty_r].
    destruct v as [| |b|x|s|l|o|tag props l]; unfold JS.or; simpl;
      try (rewrite append_empty_r; first [assumption|discriminate]).
    + destruct b; simpl; rewrite append_empty_r; [discriminate|assumption].
    + destruct (Num.falsy x); simpl; rewrite append_empty_r;
        [assumption|now apply Hnum].
    + destruct (String.eqb_spec s ""); simpl; rewrite append_empty_r; assumption.
    + destruct Harr. now exists l.
Qed.

End Encoder.

(** C10, as stated, does not hold: a node without a name whose id is the
    empty string is labelled blank, and so is a node, whatever its id,
    whose name is the empty array (a truthy value that prints as the
    empty string). *)
Lemma blank_label_refuted :
  @JS.text example_runtime
    (@GraphViz.name_line example_runtime (GraphViz.plain_node "" ∅)) = ""
  /\ @JS.text example_runtime
       (@GraphViz.name_line example_runtime
          (GraphViz.plain_node "804735132" {[ "name" := VArr [] ]})) = ""
  /\ Node.data
       (@GraphViz.processNode example_runtime false
          (GraphViz.plain_node "804735132" {[ "name" := VArr [] ]}))
       !! "label"
     = Some (VElem "div" ∅
               [VElem "div" {[ "className" := VStr "font-bold" ]} [VStr ""];
                VBool false])
  /\ Node.data (@GraphViz.processNode example_runtime false (GraphViz.plain_node "" ∅))
       !! "label"
     = Some (VElem "div" ∅
               [VElem "div" {[ "className" := VStr "font-bold" ]} [VStr ""];
                VBool false]).
Proof. conjuncts; reflexivity. Qed.

(** The five scores of the specification's fourth testable property:
    76, 75, 51, 50 and 0 give high, medium, medium, low and low; in
    normal mode the first gets the neutral encoding. *)
Lemma risk_threshold_encoding_witness :
  Node.style <$> @GraphViz.processNodes example_runtime GraphViz.five_scores true !! 0%nat
  = Some (VObj GraphViz.high_style)
  /\ Node.style <$> @GraphViz.processNodes example_runtime GraphViz.five_scores true !! 1%nat
     = Some (VObj GraphViz.medium_style)
  /\ Node.style <$> @GraphViz.processNodes example_runtime GraphViz.five_scores true !! 2%nat
     = Some (VObj GraphViz.medium_style)
  /\ Node.style <$> @GraphViz.processNodes example_runtime GraphViz.five_scores true !! 3%nat
     = Some (VObj GraphViz.low_style)
  /\ Node.style <$> @GraphViz.processNodes example_runtime GraphViz.five_scores true !! 4%nat
     = Some (VObj GraphViz.low_style)
  /\ Node.style <$> @GraphViz.processNodes example_runtime [GraphViz.plain_node "n" ∅] true
                    !! 0%nat
     = Some (VObj GraphViz.low_style)
  /\ Node.style <$> @GraphViz.processNodes example_runtime GraphViz.five_scores false !! 0%nat
     = Some (VObj GraphViz.neutral_style).
Proof.
  conjuncts.
  - destruct (@risk_threshold_encoding example_runtime GraphViz.five_scores 0
                (GraphViz.scored_node 76) eq_refl)
      as (_ & _ & _ & shown & -> & _ & _ & Hx).
    cbn [fmap option_fmap option_map]. f_equal.
    eapply (proj1 (Hx _ _ _ _ _)). Unshelve. all: try reflexivity. qcompare.
  - destruct (@risk_threshold_encoding example_runtime GraphViz.five_scores 1
                (GraphViz.scored_node 75) eq_refl)
      as (_ & _ & _ & shown & -> & _ & _ & Hx).
    cbn [fmap option_fmap option_map]. f_equal.
    eapply (proj1 (proj2 (Hx _ _ _ _ _))). Unshelve. all: try reflexivity. split; qcompare.
  - destruct (@risk_threshold_encoding example_runtime GraphViz.five_scores 2
                (GraphViz.scored_node 51) eq_refl)
      as (_ & _ & _ & shown & -> & _ & _ & Hx).
    cbn [fmap option_fmap option_map]. f_equal.
    eapply (proj1 (proj2 (Hx _ _ _ _ _))). Unshelve. all: try reflexivity. split; qcompare.
  - destruct (@risk_threshold_encoding example_runtime GraphViz.five_scores 3
                (GraphViz.scored_node 50) eq_refl)
      as (_ & _ & _ & shown & -> & _ & _ & Hx).
    cbn [fmap option_fmap option_map]. f_equal.
    eapply (proj2 (proj2 (Hx _ _ _ _ _))). Unshelve. all: try reflexivity. qcompare.
  - destruct (@risk_threshold_encoding example_runtime GraphViz.five_scores 4
                (GraphViz.scored_node 0) eq_refl)
      as (_ & _ & _ & shown & -> & _ & _ & Hx).
    cbn [fmap option_fmap option_map]. f_equal.
    eapply (proj2 (proj2 (Hx _ _ _ _ _))). Unshelve. all: try reflexivity. qcompare.
  - destruct (@risk_threshold_encoding example_runtime [GraphViz.plain_node "n" ∅] 0
                (GraphViz.plain_node "n" ∅) eq_refl)
      as (_ & _ & _ & shown & -> & _ & Ha & _).
    cbn [fmap option_fmap option_map]. f_equal. apply Ha. left. reflexivity.
  - destruct (@risk_threshold_encoding example_runtime GraphViz.five_scores 0
                (GraphViz.scored_node 76) eq_refl)
      as (_ & _ & (shown & -> & _ & Hs) & _).
    cbn [fmap option_fmap option_map]. now f_equal.
Defined.

(** C3, as stated, does not hold: an ownership percentage that is present
    with the value [0] does not give the label ["0%"]; the edge keeps its
    pre-set label, or gets the empty one. *)
Lemma edge_label_zero_percent_refuted :
  Edge.label (@GraphViz.processEdge example_runtime (GraphViz.owned_edge (VStr "PARTNER") 0))
  = VStr "PARTNER"
  /\ Edge.label (@GraphViz.processEdge example_runtime (GraphViz.owned_edge VUndef 0))
     = VStr ""
  /\ @numberToString example_runtime (Num.of_Z 0) +:+ "%" = "0%".
Proof. repeat split; reflexivity. Qed.

(** The three edges of the specification's third testable property. *)
Lemma edge_label_rule_witness :
  Edge.label (@GraphViz.processEdge example_runtime (GraphViz.owned_edge (VStr "OWNS") 40))
  = VStr "40%"
  /\ Edge.label (@GraphViz.processEdge example_runtime (GraphViz.plain_edge (VStr "PARTNER") None))
     = VStr "PARTNER"
  /\ Edge.label (@GraphViz.processEdge example_runtime (GraphViz.plain_edge VUndef None))
     = VStr "".
Proof.
  conjuncts.
  - exact (proj1 (@edge_label_rule example_runtime (GraphViz.owned_edge (VStr "OWNS") 40))
             _ _ eq_refl eq_refl eq_refl).
  - apply (proj1 (proj2 (@edge_label_rule example_runtime
                           (GraphViz.plain_edge (VStr "PARTNER") None))));
      [left; reflexivity|reflexivity].
  - apply (proj2 (proj2 (@edge_label_rule example_runtime
                           (GraphViz.plain_edge VUndef None))));
      [left; reflexivity|reflexivity].
Defined.

(** A node without a name shows its id, a named node its name; a node
    named by the number 7 is not labelled blank. *)
Lemma name_line_falls_back_to_id_witness :
  @JS.text example_runtime (@GraphViz.name_line example_runtime (GraphViz.plain_node "804735132" ∅))
  = "804735132"
  /\ @JS.text example_runtime (@GraphViz.name_line example_runtime (GraphViz.scored_node 10))
     = "Acme"
  /\ @JS.text example_runtime (@GraphViz.name_line example_runtime (GraphViz.plain_node "804735132" ∅))
     <> ""
  /\ @JS.text example_runtime
       (@GraphViz.name_line example_runtime
          (GraphViz.plain_node "804735132" {[ "name" := VNum (Num.of_Z 7) ]}))
     <> "".
Proof.
  conjuncts.
  - apply (proj1 (proj2 (@name_line_falls_back_to_id example_runtime
                           (GraphViz.plain_node "804735132" ∅) true))).
    left; reflexivity.
  - apply (proj1 (proj2 (proj2 (@name_line_falls_back_to_id example_runtime
                           (GraphViz.scored_node 10) true))));
      [reflexivity|discriminate].
  - apply (proj2 (proj2 (proj2 (@name_line_falls_back_to_id example_runtime
                           (GraphViz.plain_node "804735132" ∅) false))));
      [intros [l H]; discriminate H|intros x H; discriminate H|discriminate].
  - apply (proj2 (proj2 (proj2 (@name_line_falls_back_to_id example_runtime
                           (GraphViz.plain_node "804735132"
                              {[ "name" := VNum (Num.of_Z 7) ]}) false)))).
    + intros [l H]. vm_compute in H. discriminate H.
    + intros x H. vm_compute in H. injection H as <-. vm_compute. discriminate.
    + discriminate.
Defined.

(** ** The lineage tooltip *)

Section Tooltip.
Context {R : Runtime}.
Import EntityDetails.

Lemma text_line (props : gmap string val) (caption : string) (content : list val) :
  JS.text (line props caption content)
  = caption +:+ " " +:+ JS.text (VArr content).
Proof.
  unfold line. simpl. now rewrite append_empty_r.
Qed.

(** [toFixed(0)] prints the integer nearest to the number, a tie going
    up in magnitude. *)
Lemma toFixed0_nearest (s : bool) (m : positive) (e : Z) :
  Num.ge_1e21 m e = false ->
  JS.toFixed0 (S754_finite s m e)
  = (if s then "-" else "")%string +:+ pretty (Num.round_half_up m e)
  /\ (inject_Z (Num.round_half_up m e) - (1#2) <= Num.magnitude m e
      /\ Num.magnitude m e < inject_Z (Num.round_half_up m e) + (1#2))%Q.
Proof.
  intros H. split; [|apply round_half_up_nearest].
  cbn [JS.toFixed0]. now rewrite H.
Qed.

(** C8: when the attribute has a lineage entry, the tooltip of its field
    shows the entry's source, the first eight characters of the payload
    id followed by ["..."], and the confidence as a percentage: the
    product [confidence * 100] printed as the nearest whole number (a
    tie going up) followed by ["%"].  The file and path lines are there
    only when the entry carries the field: an absent field gives no
    element, a present one the line with its value. *)
Theorem lineage_tooltip (d : EntityData) (label fieldKey : string) (value : val)
    (l : LineageInfo) :
  lineage_of d fieldKey = Some l ->
  let tip := JS.child 2 (renderField d label fieldKey value) in
  let percent := Num.mul (confidence l) (Num.of_Z 100) in
  tip = tooltip (Some l)
  /\ length (JS.children tip) = 5%nat
  /\ JS.text (JS.child 0 tip) = "Source: " +:+ source l
  /\ JS.text (JS.child 1 tip)
     = "Payload ID: " +:+ String.substring 0 8 (payload_id l) +:+ "..."
  /\ JS.text (JS.child 2 tip) = "Confidence: " +:+ JS.toFixed0 percent +:+ "%"
  /\ (forall (s : bool) (m : positive) (e : Z),
        percent = S754_finite s m e -> Num.ge_1e21 m e = false ->
        exists n : Z,
          JS.toFixed0 percent = (if s then "-" else "")%string +:+ pretty n
          /\ (inject_Z n - (1#2) <= Num.magnitude m e
              /\ Num.magnitude m e < inject_Z n + (1#2))%Q)
  /\ (forall s : bool, percent = S754_zero s -> JS.toFixed0 percent = "0")
  /\ (file_name l = None -> JS.child 3 tip = VUndef)
  /\ (json_path l = None -> JS.child 4 tip = VUndef)
  /\ (forall s : string, file_name l = Some s ->
        JS.text (JS.child 3 tip) = if String.eqb s "" then ""%string else "File: " +:+ s)
  /\ (forall s : string, json_path l = Some s ->
        JS.text (JS.child 4 tip) = if String.eqb s "" then ""%string else "Path: " +:+ s).
Proof.
  intros Hl tip percent.
  assert (Htip : tip = tooltip (Some l)).
  { unfold tip, renderField, JS.child. cbn [JS.children nth]. now rewrite Hl. }
  split; [exact Htip|]. rewrite Htip. clear Htip tip.
  unfold tooltip, JS.child. cbn [JS.children nth length].
  split; [reflexivity|].
  rewrite !text_line. 
  split; [simpl; now rewrite append_empty_r|].
  split; [simpl; reflexivity|].
  split; [simpl; reflexivity|].
  split.
  { intros s m e Hp Hb. exists (Num.round_half_up m e).
    rewrite Hp. now apply toFixed0_nearest. }
  split; [now intros s ->|].
  unfold optional_line.
  split; [now intros ->|]. split; [now intros ->|].
  split; intros s ->; cbn [JS.truthy];
    (destruct (String.eqb_spec s "") as [->|_]; cbn [negb]; [reflexivity|]);
    rewrite text_line; simpl; now rewrite append_empty_r.
Qed.

End Tooltip.

(** The entry of the specification's seventh testable property:
    source ["ERP"], payload id ["abcdefgh1234"], confidence [0.87]. *)
Lemma lineage_tooltip_witness :
  let tip := JS.child 2 (@EntityDetails.renderField example_runtime EntityDetails.erp_entity
                           "Revenue (USD)" "revenue_usd"
                           (EntityDetails.revenue_usd EntityDetails.erp_entity)) in
  @JS.text example_runtime (JS.child 0 tip) = "Source: ERP"
  /\ @JS.text example_runtime (JS.child 1 tip) = "Payload ID: abcdefgh..."
  /\ @JS.text example_runtime (JS.child 2 tip) = "Confidence: 87%"
  /\ JS.child 3 tip = VUndef
  /\ JS.child 4 tip = VUndef.
Proof.
  intros tip.
  pose proof (@lineage_tooltip example_runtime EntityDetails.erp_entity
                "Revenue (USD)" "revenue_usd"
                (EntityDetails.revenue_usd EntityDetails.erp_entity)
                EntityDetails.erp_lineage eq_refl)
    as (_ & _ & H0 & H1 & H2 & _ & _ & H3 & H4 & _).
  conjuncts.
  - exact H0.
  - exact H1.
  - exact H2.
  - exact (H3 eq_refl).
  - exact (H4 eq_refl).
Defined.

(** ** The viewing session *)

Section SessionFacts.
Context {R : Runtime} {F : ReactFlow}.
Import Session.

Lemma handleSearch_finish_loading (st : Home.State) (o : Home.GraphOutcome) :
  Home.loading (Home.handleSearch_finish st o) = false.
Proof.
  unfold Home.handleSearch_finish.
  destruct o as [|ok [[d|]|]]; cbn; [reflexivity| | |destruct ok; reflexivity];
    destruct ok; reflexivity.
Qed.

Lemma exec_one_request (pg pg' : Page) (ev : Event) :
  one_request pg -> exec pg ev = Some pg' -> one_request pg'.
Proof.
  unfold one_request. intros Hinv Hex.
  destruct ev as [s| |i o|ev]; cbn in Hex.
  - injection Hex as <-. exact Hinv.
  - destruct (Home.loading (home pg)) eqn:Hl; [discriminate|].
    injection Hex as <-. cbn. rewrite Hinv. now exists (Home.entityId (home pg)).
  - destruct (inflight pg !! i) eqn:Hi; [|discriminate].
    injection Hex as <-. cbn. rewrite handleSearch_finish_loading.
    destruct (Home.loading (home pg)).
    + destruct Hinv as [id Hid]. rewrite Hid in *.
      destruct i; [reflexivity|discriminate].
    + rewrite Hinv in Hi. discriminate.
  - injection Hex as <-. exact Hinv.
Qed.

Lemma run_one_request (evs : list Event) (pg pg' : Page) :
  one_request pg -> run pg evs = Some pg' -> one_request pg'.
Proof.
  revert pg. induction evs as [|ev evs IH]; intros pg Hinv Hrun; cbn in Hrun.
  - now injection Hrun as <-.
  - destruct (exec pg ev) as [pg1|] eqn:Hex; [|discriminate].
    eapply IH; [|exact Hrun]. eapply exec_one_request; eassumption.
Qed.

Lemma initial_one_request : one_request initial.
Proof. reflexivity. Qed.

(** With nothing in flight and no click, the graph data of the page
    stays as it is. *)
Lemma run_without_click (evs : list Event) (pg pg' : Page) :
  inflight pg = [] ->
  forallb (fun ev => negb (is_click ev)) evs = true ->
  run pg evs = Some pg' ->
  inflight pg' = []
  /\ Home.nodes (home pg') = Home.nodes (home pg)
  /\ Home.edges (home pg') = Home.edges (home pg)
  /\ GraphViz.props (graph pg') = GraphViz.props (graph pg).
Proof.
  revert pg. induction evs as [|ev evs IH]; intros pg Hin Hnc Hrun; cbn in *.
  - now injection Hrun as <-.
  - apply andb_prop in Hnc as [Hev Hnc].
    destruct (exec pg ev) as [pg1|] eqn:Hex; [|discriminate].
    assert (H1 : inflight pg1 = []
                 /\ Home.nodes (home pg1) = Home.nodes (home pg)
                 /\ Home.edges (home pg1) = Home.edges (home pg)
                 /\ GraphViz.props (graph pg1) = GraphViz.props (graph pg)).
    { destruct ev as [s| |i o|ev]; cbn in Hex, Hev; try discriminate.
      - injection Hex as <-. cbn. auto.
      - rewrite Hin in Hex. discriminate.
      - injection Hex as <-. cbn. repeat split; auto.
        destruct ev as [c|ch|ch|b]; cbn; try reflexivity.
        unfold GraphViz.setRiskMode.
        destruct (Bool.eqb b (GraphViz.riskMode (graph pg))); reflexivity. }
    destruct H1 as (Hin1 & Hn1 & He1 & Hp1).
    destruct (IH pg1 Hin1 Hnc Hrun) as (? & ? & ? & ?).
    repeat split; congruence.
Qed.

(** C6: in every state the page can reach, when the response carrying
    entity B's graph is delivered, the graph model is exactly B's nodes
    and edges (an absent list counting as empty) and the view's working
    copy is derived from them alone: nothing of the graph loaded before
    remains.  No other response is then outstanding, so no stale one
    can arrive later: until the next click on Analyze, whatever else
    happens, the model stays B's. *)
Theorem fetch_and_replace (evs : list Event) (pg pg' : Page) (i : nat)
    (payload : Home.GraphPayload) :
  run initial evs = Some pg ->
  exec pg (Respond i (Fetch.Response true (Some (Some payload)))) = Some pg' ->
  let ns := default [] (Home.payload_nodes payload) in
  let es := default [] (Home.payload_edges payload) in
  Home.nodes (home pg') = ns
  /\ Home.edges (home pg') = es
  /\ GraphViz.nodes (graph pg') = GraphViz.processNodes ns (GraphViz.riskMode (graph pg))
  /\ GraphViz.edges (graph pg') = GraphViz.processEdges es
  /\ inflight pg' = []
  /\ (forall (evs' : list Event) (pg'' : Page),
        forallb (fun ev => negb (is_click ev)) evs' = true ->
        run pg' evs' = Some pg'' ->
        Home.nodes (home pg'') = ns /\ Home.edges (home pg'') = es
        /\ GraphViz.initialNodes (GraphViz.props (graph pg'')) = ns
        /\ GraphViz.initialEdges (GraphViz.props (graph pg'')) = es).
Proof.
  intros Hrun Hex ns es.
  pose proof (run_one_request _ _ _ initial_one_request Hrun) as Hinv.
  pose proof (exec_one_request _ _ _ Hinv Hex) as Hinv'.
  cbn in Hex. destruct (inflight pg !! i) eqn:Hi; [|discriminate].
  injection Hex as <-.
  unfold one_request in Hinv'. cbn in Hinv'.
  assert (Hin : delete i (inflight pg) = []) by exact Hinv'.
  cbn. conjuncts; try reflexivity; try exact Hin.
  intros evs' pg'' Hnc Hrun'.
  destruct (run_without_click evs' _ pg'' (Hin : inflight (Build_Page _ _ _) = []) Hnc Hrun')
    as (_ & Hn & He & Hp).
  cbn in Hn, He, Hp. rewrite Hp. conjuncts; auto.
Qed.


(** C9: a connection drawn by the user and a change of position from a
    drag alter the working copy of the view and nothing else: the state
    of the page that holds the fetched graph, the props and the
    outstanding requests are as before (no request is issued).  They
    are discarded with the next snapshot: the page after the next
    response is the one it would have been without the edit, its
    working copy derived from the new nodes and edges alone. *)
Theorem graph_edits_are_view_local (pg pg' : Page) (ev : GraphViz.Event) :
  is_edit ev = true ->
  exec pg (OnGraph ev) = Some pg' ->
  home pg' = home pg
  /\ inflight pg' = inflight pg
  /\ GraphViz.props (graph pg') = GraphViz.props (graph pg)
  /\ (forall params : Connection,
        ev = GraphViz.Connect params ->
        GraphViz.nodes (graph pg') = GraphViz.nodes (graph pg)
        /\ GraphViz.edges (graph pg') = addEdge params (GraphViz.edges (graph pg)))
  /\ (forall changes : list NodeChange,
        ev = GraphViz.NodesChange changes ->
        GraphViz.nodes (graph pg') = applyNodeChanges changes (GraphViz.nodes (graph pg))
        /\ GraphViz.edges (graph pg') = GraphViz.edges (graph pg))
  /\ (forall (i : nat) (o : Home.GraphOutcome),
        exec pg' (Respond i o) = exec pg (Respond i o))
  /\ (forall (i : nat) (o : Home.GraphOutcome) (pg'' : Page),
        exec pg' (Respond i o) = Some pg'' ->
        GraphViz.nodes (graph pg'')
        = GraphViz.processNodes (Home.nodes (home pg'')) (GraphViz.riskMode (graph pg))
        /\ GraphViz.edges (graph pg'') = GraphViz.processEdges (Home.edges (home pg''))).
Proof.
  intros Hed Hex. cbn in Hex. injection Hex as <-.
  assert (Hm : GraphViz.riskMode (GraphViz.handle ev (graph pg))
               = GraphViz.riskMode (graph pg)).
  { destruct ev; try discriminate; reflexivity. }
  conjuncts; cbn [home graph inflight].
  - reflexivity.
  - reflexivity.
  - destruct ev; try discriminate; reflexivity.
  - intros params ->. split; reflexivity.
  - intros changes ->. split; reflexivity.
  - intros i o. cbn [exec home graph inflight].
    destruct (inflight pg !! i); [|reflexivity].
    unfold GraphViz.receiveProps. now rewrite Hm.
  - intros i o pg'' Hr. cbn [exec home graph inflight] in Hr.
    destruct (inflight pg !! i); [|discriminate].
    injection Hr as <-. cbn. now rewrite Hm.
Qed.

End SessionFacts.

(** Entity A is loaded and edited, then entity B is fetched. *)
Lemma fetch_and_replace_witness :
  exists pg pg' : Session.Page,
    @Session.run example_runtime example_reactflow
      (@Session.initial example_runtime) Session.session_A_edited_B
    = Some pg
    /\ @Session.exec example_runtime example_reactflow pg
         (Session.Respond 0 (Session.ok_response Session.payload_B)) = Some pg'
    /\ Home.nodes (Session.home pg') = [GraphViz.plain_node "B1" ∅]
    /\ Home.edges (Session.home pg') = []
    /\ GraphViz.edges (Session.graph pg') = []
    /\ Session.inflight pg' = [].
Proof.
  eexists. eexists.
  split; [vm_compute; reflexivity|].
  split; [vm_compute; reflexivity|].
  match goal with
  | |- Home.nodes (Session.home ?q) = _ /\ _ =>
      pose proof (@fetch_and_replace example_runtime example_reactflow
                    Session.session_A_edited_B _ q 0 Session.payload_B
                    eq_refl eq_refl) as (Hn & He & _ & Hg & Hi & _)
  end.
  conjuncts.
  - exact Hn.
  - exact He.
  - exact Hg.
  - exact Hi.
Defined.

(** A connection drawn while the request for entity B is in flight. *)
Lemma graph_edits_are_view_local_witness :
  exists pg pg' : Session.Page,
    @Session.run example_runtime example_reactflow
      (@Session.initial example_runtime) Session.session_A_then_B
    = Some pg
    /\ @Session.exec example_runtime example_reactflow pg
         (Session.OnGraph (GraphViz.Connect Session.drawn)) = Some pg'
    /\ Session.home pg' = Session.home pg
    /\ Session.inflight pg' = Session.inflight pg
    /\ length (GraphViz.edges (Session.graph pg')) = 2%nat
    /\ @Session.exec example_runtime example_reactflow pg'
         (Session.Respond 0 (Session.ok_response Session.payload_B))
       = @Session.exec example_runtime example_reactflow pg
           (Session.Respond 0 (Session.ok_response Session.payload_B)).
Proof.
  eexists. eexists.
  split; [vm_compute; reflexivity|].
  split; [vm_compute; reflexivity|].
  match goal with
  | |- Session.home ?q = Session.home ?q0 /\ _ =>
      pose proof (@graph_edits_are_view_local example_runtime example_reactflow
                    q0 q (GraphViz.Connect Session.drawn) eq_refl eq_refl)
        as (Hh & Hi & _ & Hc & _ & Hr & _)
  end.
  conjuncts.
  - exact Hh.
  - exact Hi.
  - rewrite (proj2 (Hc _ eq_refl)). reflexivity.
  - exact (Hr 0%nat _).
Defined.

(** ** The fetches *)

Section Fetches.

Lemma fetchEntityGraph_refused {A} (o : Fetch.outcome A) :
  Fetch.refused o = true -> exists e, Home.fetchEntityGraph o = Throw e.
Proof.
  destruct o as [|ok [d|]]; cbn; intros H; eauto.
  - rewrite H. eauto.
  - destruct ok; eauto.
Qed.



End Fetches.


(* ===================================================================== *)
(** * Part III.  Further properties of the code                          *)
(* ===================================================================== *)

(** ** The dictionary page *)

Section Dictionary.
Import Explorer.

Lemma normalizeItem_cases (item : val) :
  normalizeItem item
  = if JS.nullish item then Throw TypeError
    else Ok (resolve_with first_truthy default_of (own_record item)).
Proof.
  destruct item as [ | |b|x|s|l|raw|tag props children]; try reflexivity.
  apply normalizeItem_object.
Qed.

(** X1: the normalisation of a dictionary is all or nothing.  When some row
    is [null] or [undefined] the whole call throws a TypeError, wherever
    the row stands and whatever the other rows hold; otherwise it
    returns one record for each row, in the order of the rows, each
    resolved from the row's own keys. *)
Theorem normalizedDict_all_or_nothing (dictData : list val) :
  normalizedDict dictData
  = if existsb JS.nullish dictData then Throw TypeError
    else Ok (map (fun item => resolve_with first_truthy default_of (own_record item))
                 dictData).
Proof.
  unfold normalizedDict.
  induction dictData as [|item rows IH]; [reflexivity|].
  cbn [JS.mapM existsb map]. rewrite normalizeItem_cases.
  destruct (JS.nullish item); [reflexivity|].
  cbn [JS.bind orb]. rewrite IH.
  destruct (existsb JS.nullish rows); reflexivity.
Qed.

Lemma first_truthy_result (raw : gmap string val) (keys : list string) (dflt : val) :
  JS.truthy (first_truthy raw keys dflt) = true
  \/ first_truthy raw keys dflt = dflt.
Proof.
  induction keys as [|k ks IH]; cbn [first_truthy]; [now right|].
  destruct (JS.truthy (default VUndef (raw !! k))) eqn:Hk; [now left|exact IH].
Qed.

(** X2: in a resolved record the field name is never blank: it is a truthy
    value (["Unknown"] when the row offers none).  Each of the other four
    fields is a truthy value or the empty string; [null], [0], [false]
    and [undefined] never reach the table. *)
Theorem resolved_fields_never_blank_name (item : val) (r : DictionaryItem) :
  normalizeItem item = Ok r ->
  JS.truthy (fieldName r) = true
  /\ (JS.truthy (description r) = true \/ description r = VStr "")
  /\ (JS.truthy (dnbCode r) = true \/ dnbCode r = VStr "")
  /\ (JS.truthy (type r) = true \/ type r = VStr "")
  /\ (JS.truthy (length r) = true \/ length r = VStr "").
Proof.
  rewrite normalizeItem_cases. destruct (JS.nullish item); [discriminate|].
  intros H. injection H as <-. cbn [resolve_with fieldName description dnbCode type length].
  conjuncts; try apply first_truthy_result.
  destruct (first_truthy_result (own_record item) (aliases FieldName) (default_of FieldName))
    as [H|H]; [exact H|]. rewrite H. reflexivity.
Qed.

Lemma first_truthy_agree (raw raw' : gmap string val) (keys : list string) (dflt : val) :
  (forall k, In k keys -> raw' !! k = raw !! k) ->
  first_truthy raw' keys dflt = first_truthy raw keys dflt.
Proof.
  induction keys as [|k ks IH]; intros H; cbn [first_truthy]; [reflexivity|].
  rewrite (H k (or_introl eq_refl)), IH; [reflexivity|].
  intros k' Hk'. apply H. now right.
Qed.

(** X3: the resolver reads the ten alias keys and nothing else: two rows that
    agree on those keys resolve to the same record, whatever other keys
    they carry. *)
Theorem resolver_reads_alias_keys_only (raw raw' : gmap string val) :
  (forall k, In k all_aliases -> raw' !! k = raw !! k) ->
  normalizeItem (VObj raw') = normalizeItem (VObj raw).
Proof.
  intros H. rewrite !normalizeItem_object. unfold resolve_with. f_equal.
  f_equal; apply first_truthy_agree; intros k Hk; apply H;
    unfold all_aliases; rewrite !in_app_iff; auto 10.
Qed.

End Dictionary.

Section DictionaryEffect.
Import Explorer.


(** X5: the three fetches of the dictionary page never look at the status of
    the response: a body that parses is taken as the data, also when
    the status is an error.  The graph fetch and the golden record fetch
    accept a body only under an ok status; under any other status the
    graph falls back to the demo nodes and the record keeps its old data
    and shows the notice. *)
Theorem status_checked_for_graph_only :
  (forall (A : Type) (o : Fetch.outcome A) (d : A),
     Fetch.json o = Ok d <-> exists ok, o = Fetch.Response ok (Some d))
  /\ (forall (A : Type) (o : Fetch.outcome A) (d : A),
        Home.fetchEntityGraph o = Ok d <-> o = Fetch.Response true (Some d))
  /\ (forall (ok : bool) (rows : val) (v : val),
        fetchDict (Fetch.Response ok (Some rows)) = rows
        /\ fetchSample (Fetch.Response ok (Some v)) = v)
  /\ (forall (st : State) (ok : bool) (ms : list ModuleEntry),
        modules (loadModules st (Fetch.Response ok (Some ms))) = ms)
  /\ (forall (st : Home.State) (body : option (option Home.GraphPayload)),
        Home.nodes (Home.handleSearch_finish st (Fetch.Response false body))
        = Home.mock_nodes)
  /\ (forall (st : EntityDetails.State) (body : option (option EntityDetails.EntityData)),
        EntityDetails.data (EntityDetails.fetchData_finish st (Fetch.Response false body))
        = EntityDetails.data st
        /\ EntityDetails.error (EntityDetails.fetchData_finish st (Fetch.Response false body))
           = "Could not load entity details.").
Proof.
  conjuncts.
  - intros A o d; split.
    + destruct o as [|ok [d'|]]; cbn; intros H; try discriminate.
      injection H as <-. now exists ok.
    + intros [ok ->]. reflexivity.
  - intros A o d; split.
    + destruct o as [|[] [d'|]]; cbn; intros H; try discriminate.
      now injection H as <-.
    + intros ->. reflexivity.
  - intros ok rows v. split; reflexivity.
  - intros st ok [|m ms]; reflexivity.
  - intros st body. reflexivity.
  - intros st body. split; reflexivity.
Qed.

End DictionaryEffect.

(** ** The graph component *)

Section Derivation.
Context {R : Runtime} {F : ReactFlow}.
Import GraphViz.

Lemma or_empty_idem (l : val) :
  JS.or (JS.or l (VStr "")) (VStr "") = JS.or l (VStr "").
Proof. unfold JS.or. destruct (JS.truthy l) eqn:H; [now rewrite H|reflexivity]. Qed.

Lemma processEdge_idem (e : Edge.t) : processEdge (processEdge e) = processEdge e.
Proof.
  unfold processEdge at 1. cbn [Edge.id Edge.source Edge.target Edge.data Edge.other].
  assert (Ho : ownership (processEdge e) = ownership e) by reflexivity.
  rewrite Ho. unfold processEdge. cbn [Edge.label]. f_equal.
  destruct (JS.truthy (ownership e)); [reflexivity|apply or_empty_idem].
Qed.

(** X6: deriving the edge visuals is idempotent, so edges that were already
    processed can be processed again without change; and the label of a
    processed edge is always a truthy value or the empty string, never
    [undefined] or [null]. *)
Theorem processEdges_idempotent (es : list Edge.t) :
  processEdges (processEdges es) = processEdges es
  /\ Forall (fun e => JS.truthy (Edge.label e) = true \/ Edge.label e = VStr "")
            (processEdges es).
Proof.
  unfold processEdges. split.
  - rewrite map_map. apply map_ext. intros e. apply processEdge_idem.
  - apply Forall_map, Forall_forall. intros e _.
    cbn [processEdge Edge.label].
    destruct (JS.truthy (ownership e)) eqn:Ho.
    + left. cbn [JS.truthy]. 
      destruct (JS.ToString (ownership e)); reflexivity.
    + unfold JS.or. destruct (JS.truthy (Edge.label e)) eqn:Hl; [now left|now right].
Qed.

Lemma processNode_after (a b : bool) (n : Node.t) :
  processNode b (processNode a n) = processNode b n.
Proof.
  assert (Hr : risk_score (processNode a n) = risk_score n).
  { unfold risk_score. cbn [processNode Node.data]. now rewrite lookup_insert_ne. }
  assert (Hn : Node.data (processNode a n) !! "name" = Node.data n !! "name").
  { cbn [processNode Node.data]. now rewrite lookup_insert_ne. }
  assert (Hl : node_label (processNode a n) b = node_label n b).
  { unfold node_label, name_line, risk_line. now rewrite Hr, Hn. }
  assert (Hs : node_style (processNode a n) b = node_style n b).
  { unfold node_style. now rewrite Hr. }
  unfold processNode at 1. rewrite Hl, Hs.
  cbn [processNode Node.id Node.position Node.data Node.type Node.other].
  now rewrite insert_insert_eq.
Qed.

(** X7: deriving the node visuals from nodes that were already derived, in
    either mode, gives what deriving from the original nodes gives: the
    last mode wins, nothing of an earlier derivation is left, and
    deriving twice in one mode is deriving once. *)
Theorem processNodes_last_mode_wins (ns : list Node.t) (a b : bool) :
  processNodes (processNodes ns a) b = processNodes ns b.
Proof.
  unfold processNodes. rewrite map_map. apply map_ext. intros n.
  apply processNode_after.
Qed.

(** X8: the derivations keep the identity of what they derive from: the ids
    and positions of the nodes and the ids, end points and data of the
    edges are the same, in the same order; every data member of a node
    other than [label] is kept; and a [label] the incoming data already
    carries has no influence on the result. *)
Theorem derivation_keeps_identity (ns : list Node.t) (es : list Edge.t) (m : bool) :
  map Node.id (processNodes ns m) = map Node.id ns
  /\ map Node.position (processNodes ns m) = map Node.position ns
  /\ map Edge.id (processEdges es) = map Edge.id es
  /\ map Edge.source (processEdges es) = map Edge.source es
  /\ map Edge.target (processEdges es) = map Edge.target es
  /\ map Edge.data (processEdges es) = map Edge.data es
  /\ (forall (n : Node.t) (k : string),
        k <> "label" -> Node.data (processNode m n) !! k = Node.data n !! k)
  /\ (forall (n : Node.t) (v : val),
        processNode m (with_data n (<["label" := v]> (Node.data n))) = processNode m n).
Proof.
  unfold processNodes, processEdges. rewrite !map_map.
  conjuncts; try (apply map_ext; reflexivity).
  - intros n k Hk. cbn [processNode Node.data]. now rewrite lookup_insert_ne.
  - intros n v.
    assert (Hr : risk_score (with_data n (<["label" := v]> (Node.data n))) = risk_score n).
    { unfold risk_score. cbn [with_data Node.data]. now rewrite lookup_insert_ne. }
    assert (Hn : Node.data (with_data n (<["label" := v]> (Node.data n))) !! "name"
                 = Node.data n !! "name").
    { cbn [with_data Node.data]. now rewrite lookup_insert_ne. }
    unfold processNode, node_label, name_line, risk_line, node_style.
    rewrite Hr, Hn. cbn [with_data Node.id Node.position Node.data Node.type Node.other].
    now rewrite insert_insert_eq.
Qed.

(** X9: setting the risk mode to the value it has changes nothing.  Changing
    it derives nodes and edges again from the props, so that a drawn
    connection and a drag made before are lost; and changing it there
    and back again gives the freshly derived state. *)
Theorem setRiskMode_rederives (st : State) (c : Connection) (chs : list NodeChange) :
  setRiskMode (riskMode st) st = st
  /\ (let st' := setRiskMode (negb (riskMode st)) (onNodesChange chs (onConnect c st)) in
      riskMode st' = negb (riskMode st)
      /\ nodes st' = processNodes (initialNodes (props st)) (negb (riskMode st))
      /\ edges st' = processEdges (initialEdges (props st)))
  /\ setRiskMode (riskMode st) (setRiskMode (negb (riskMode st)) st) = effect st.
Proof.
  conjuncts.
  - unfold setRiskMode. now rewrite Bool.eqb_reflx.
  - unfold setRiskMode. cbn [onNodesChange onConnect riskMode].
    destruct (riskMode st); conjuncts; reflexivity.
  - unfold setRiskMode, effect. destruct (riskMode st) eqn:Hm; cbn; rewrite ?Hm; reflexivity.
Qed.

(** X10: in heat-map mode a score that is NaN, a zero of either sign, any
    negative number or minus infinity gets the low encoding, and plus
    infinity the high one. *)
Theorem score_edge_cases (node : Node.t) (x : number) :
  Node.data node !! "risk_score" = Some (VNum x) ->
  (x = S754_nan -> node_style node true = low_style)
  /\ (forall s, x = S754_zero s -> node_style node true = low_style)
  /\ (forall m e, x = S754_finite true m e -> node_style node true = low_style)
  /\ (x = S754_infinity true -> node_style node true = low_style)
  /\ (x = S754_infinity false -> node_style node true = high_style).
Proof.
  intros Hx. unfold node_style, risk_score. rewrite Hx.
  conjuncts; intros; subst x; reflexivity.
Qed.

End Derivation.

Section Severity.
Context {R : Runtime}.
Import GraphViz.

(** X11: the heat-map encoding is monotone in the score: of two nodes, the one
    with the larger score never gets the lower encoding. *)
Theorem encoding_monotone (n1 n2 : Node.t) (x1 x2 : number) (q1 q2 : Q) :
  Node.data n1 !! "risk_score" = Some (VNum x1) ->
  Node.data n2 !! "risk_score" = Some (VNum x2) ->
  Num.valid x1 = true -> Num.valid x2 = true ->
  Num.value x1 = Some q1 -> Num.value x2 = Some q2 ->
  (q1 <= q2)%Q ->
  (node_style n1 true = high_style -> node_style n2 true = high_style)
  /\ (node_style n1 true = medium_style ->
      node_style n2 true = medium_style \/ node_style n2 true = high_style)
  /\ (node_style n2 true = low_style -> node_style n1 true = low_style).
Proof.
  intros H1 H2 Hv1 Hv2 Hq1 Hq2 Hle.
  pose proof (gt_score_value 75 _ _ x1 q1 eq_refl eq_refl eq_refl Hv1 Hq1) as A75.
  pose proof (gt_score_value 50 _ _ x1 q1 eq_refl eq_refl eq_refl Hv1 Hq1) as A50.
  pose proof (gt_score_value 75 _ _ x2 q2 eq_refl eq_refl eq_refl Hv2 Hq2) as B75.
  pose proof (gt_score_value 50 _ _ x2 q2 eq_refl eq_refl eq_refl Hv2 Hq2) as B50.
  change (inject_Z 75) with 75%Q in *. change (inject_Z 50) with 50%Q in *.
  destruct encodings_distinct as (Dhm & Dhl & Dml & _).
  unfold node_style, risk_score. rewrite H1, H2.
  change (default VUndef (Some (VNum x1))) with (VNum x1).
  change (default VUndef (Some (VNum x2))) with (VNum x2).
  destruct (JS.gt (JS.or (VNum x1) _) (Num.of_Z 75)) eqn:E1;
  destruct (JS.gt (JS.or (VNum x1) _) (Num.of_Z 50)) eqn:E2;
  destruct (JS.gt (JS.or (VNum x2) _) (Num.of_Z 75)) eqn:E3;
  destruct (JS.gt (JS.or (VNum x2) _) (Num.of_Z 50)) eqn:E4.
  all: conjuncts; intros Hs; auto; try congruence; exfalso.
  all: try (assert (75 < q1)%Q by (now apply A75)).
  all: try (assert (50 < q1)%Q by (now apply A50)).
  all: try (assert (false = true) by (apply B75; lra); discriminate).
  all: try (assert (false = true) by (apply B50; lra); discriminate).
Qed.

End Severity.

(** ** The search *)

Section Search.
Context {R : Runtime} {F : ReactFlow}.
Import Session.

(** X12: in every state the page can reach, the loading flag is set exactly
    when a graph request is in flight, there is never more than one,
    and a click on Analyze is refused exactly then. *)
Theorem loading_iff_request_in_flight (evs : list Event) (pg : Page) :
  run initial evs = Some pg ->
  (Home.loading (home pg) = true <-> inflight pg <> [])
  /\ (length (inflight pg) <= 1)%nat
  /\ (exec pg ClickAnalyze = None <-> inflight pg <> []).
Proof.
  intros Hrun.
  pose proof (run_one_request _ _ _ initial_one_request Hrun) as Hinv.
  unfold one_request in Hinv. cbn [exec].
  destruct (Home.loading (home pg)).
  - destruct Hinv as [id ->]. conjuncts; cbn; try lia; try split; auto; discriminate.
  - rewrite Hinv. conjuncts; cbn; try lia; split; intros H; try discriminate; congruence.
Qed.

(** X13: a search that has run to its end leaves the loading flag cleared and
    the entity id untouched, and one of two states: the nodes and edges
    of the body with no notice (an earlier notice is gone), when the
    response is ok with an object as its body; in every other case the
    demo nodes and edges together with the notice. *)
Theorem search_outcome (st : Home.State) (o : Home.GraphOutcome) :
  let st' := Home.handleSearch_finish (Home.handleSearch_start st) o in
  Home.loading st' = false
  /\ Home.entityId st' = Home.entityId st
  /\ ((exists p, o = Fetch.Response true (Some (Some p))
                 /\ Home.error st' = ""
                 /\ Home.nodes st' = default [] (Home.payload_nodes p)
                 /\ Home.edges st' = default [] (Home.payload_edges p))
      \/ ((forall p, o <> Fetch.Response true (Some (Some p)))
          /\ Home.error st' = "Failed to fetch graph data. Is the backend running?"
          /\ Home.nodes st' = Home.mock_nodes
          /\ Home.edges st' = Home.mock_edges)).
Proof.
  destruct o as [|[] [[p|]|]]; cbn; conjuncts; try reflexivity.
  all: first [ left; exists p; conjuncts; reflexivity
             | right; conjuncts; try reflexivity; intros p'; discriminate ].
Qed.

End Search.

(** ** The golden record panel *)

Section Record.
Context {R : Runtime}.
Import EntityDetails.

Lemma append_assoc_string (a b c : string) : (a +:+ b) +:+ c = a +:+ b +:+ c.
Proof.
  induction a as [|x a IH]; [reflexivity|].
  change (String x ((a +:+ b) +:+ c) = String x (a +:+ b +:+ c)). now rewrite IH.
Qed.

Lemma substring_0_prefix (n : nat) (s : string) :
  String.length (String.substring 0 n s) = Nat.min n (String.length s)
  /\ exists rest, s = String.substring 0 n s +:+ rest.
Proof.
  revert s. induction n as [|n IH]; intros s.
  - destruct s; cbn; (split; [reflexivity|eexists; reflexivity]).
  - destruct s as [|c s]; cbn [String.substring String.length Nat.min].
    + split; [reflexivity|now exists ""].
    + destruct (IH s) as [Hl [rest Hr]]. split; [now rewrite Hl|].
      exists rest. change (String c s = String c (String.substring 0 n s +:+ rest)).
      now rewrite <- Hr.
Qed.

Lemma substring_0_whole (n : nat) (s : string) :
  (String.length s <= n)%nat -> String.substring 0 n s = s.
Proof.
  revert s. induction n as [|n IH]; intros [|c s] H; cbn in *; try reflexivity; try lia.
  rewrite IH; [reflexivity|lia].
Qed.

(** X14: the payload id shown in the tooltip is the prefix of the id of length
    eight, or the whole id when it is shorter; the three dots follow in
    both cases, also when nothing was cut. *)
Theorem payload_id_truncation (l : LineageInfo) :
  let shown := String.substring 0 8 (payload_id l) in
  JS.text (JS.child 1 (tooltip (Some l))) = "Payload ID: " +:+ shown +:+ "..."
  /\ String.length shown = Nat.min 8 (String.length (payload_id l))
  /\ (exists rest, payload_id l = shown +:+ rest)
  /\ ((String.length (payload_id l) <= 8)%nat -> shown = payload_id l).
Proof.
  intros shown. subst shown. conjuncts.
  - unfold tooltip, JS.child. cbn [JS.children nth]. rewrite text_line. reflexivity.
  - apply substring_0_prefix.
  - apply substring_0_prefix.
  - apply substring_0_whole.
Qed.

(** X15: a field shows its label, a colon and its value; the marker ["N/A"]
    stands for [null] and [undefined] only, the number [0] and the empty
    string are shown as values.  Without a lineage entry for the field
    there is no tooltip element and the text of the field is label and
    value alone. *)
Theorem renderField_value_cell (d : EntityData) (label fieldKey : string) (value : val) :
  let field := renderField d label fieldKey value in
  JS.text (JS.child 0 field) = label +:+ ": "
  /\ JS.text (JS.child 1 field)
     = (if JS.nullish value then "N/A"%string else JS.toLocaleString value)
  /\ (forall s : bool, value = VNum (S754_zero s) ->
        JS.text (JS.child 1 field) = numberToLocaleString (S754_zero s))
  /\ (value = VStr "" -> JS.text (JS.child 1 field) = "")
  /\ (lineage_of d fieldKey = None ->
      JS.child 2 field = VUndef
      /\ JS.text field
         = label +:+ ": "
           +:+ (if JS.nullish value then "N/A"%string else JS.toLocaleString value)).
Proof.
  intros field. subst field. unfold renderField, JS.child. cbn [JS.children nth].
  conjuncts.
  - simpl. now rewrite append_empty_r.
  - destruct (JS.nullish value); simpl; [reflexivity|apply append_empty_r].
  - intros s ->. simpl. apply append_empty_r.
  - intros ->. reflexivity.
  - intros ->. split; [reflexivity|].
    destruct (JS.nullish value); simpl; rewrite ?append_empty_r;
      apply append_assoc_string.
Qed.

End Record.

Section RecordPanel.
Context {R : Runtime}.
Import EntityDetails.

(** X16: when the id changes to a new one that is not empty, a fetch starts:
    the notice is cleared and the panel shows the loading line, whatever
    data it holds.  Any response that arrives clears the loading flag,
    also while other requests are still pending.  A failed one keeps
    the data and shows the notice.  A successful one stores its body;
    the panel then shows the card of the record (nothing for the body
    [null]), unless the notice of a response that failed before is
    standing, which then goes on showing. *)
Theorem render_after_fetch (server : string -> Fetch.outcome (option EntityData))
    (pn : Panel) :
  (forall id, id <> "" -> id <> entityId pn ->
     exists pn',
       panel_exec server pn (SetEntityId id) = Some pn'
       /\ entityId pn' = id
       /\ pending pn' = pending pn ++ [id]
       /\ data (state pn') = data (state pn)
       /\ error (state pn') = ""
       /\ JS.text (render (state pn')) = "Loading details...")
  /\ (forall i id, pending pn !! i = Some id ->
        exists pn',
          panel_exec server pn (Arrive i) = Some pn'
          /\ entityId pn' = entityId pn
          /\ pending pn' = delete i (pending pn)
          /\ loading (state pn') = false
          /\ (Fetch.refused (server id) = true ->
              data (state pn') = data (state pn)
              /\ JS.text (render (state pn')) = "Could not load entity details.")
          /\ (forall body, server id = Fetch.Response true (Some body) ->
                data (state pn') = body
                /\ error (state pn') = error (state pn)
                /\ (error (state pn) = "" ->
                    render (state pn') = match body with
                                         | Some d => card d
                                         | None => VNull
                                         end)
                /\ (error (state pn) <> "" ->
                    JS.text (render (state pn')) = error (state pn)))).
Proof.
  split.
  - intros id Hid Hne. cbn [panel_exec].
    apply String.eqb_neq in Hid, Hne. rewrite Hne. unfold runEffect. rewrite Hid.
    eexists. split; [reflexivity|]. cbn [entityId pending state].
    conjuncts; reflexivity.
  - intros i id Hi. cbn [panel_exec]. rewrite Hi.
    eexists. split; [reflexivity|]. cbn [entityId pending state].
    split; [reflexivity|]. split; [reflexivity|]. split; [|split].
    + destruct (server id) as [|[] [[d|]|]]; reflexivity.
    + intros H. destruct (server id) as [|[] [[d|]|]]; try discriminate;
        split; reflexivity.
    + intros body ->. cbn [fetchData_finish JS.bind JS.try_catch negb].
      split; [reflexivity|]. split; [reflexivity|].
      unfold render. cbn [loading error data JS.truthy]. split.
      * intros ->. reflexivity.
      * intros Hne. destruct (String.eqb_spec (error (state pn)) ""); [contradiction|].
        cbn. apply append_empty_r.
Qed.

(** X17: the responses for the golden record are applied as they arrive,
    whatever id they answer.  When the id changes from A to B while the
    request for A is in flight and B is answered first, the loading flag
    is cleared while the request for A is still pending, and the late
    answer for A then puts the record of A under the id B. *)
Theorem stale_record_overwrites (server : string -> Fetch.outcome (option EntityData))
    (idA idB : string) (dA : EntityData) :
  idA <> "" -> idB <> "" -> idA <> idB ->
  server idA = Fetch.Response true (Some (Some dA)) ->
  (exists pn1,
     panel_run server (mount idA) [SetEntityId idB; Arrive 1%nat] = Some pn1
     /\ pending pn1 = [idA] /\ loading (state pn1) = false)
  /\ (exists pn2,
        panel_run server (mount idA) [SetEntityId idB; Arrive 1%nat; Arrive 0%nat]
        = Some pn2
        /\ entityId pn2 = idB /\ pending pn2 = []
        /\ loading (state pn2) = false /\ data (state pn2) = Some dA).
Proof.
  intros HA HB HAB Hs.
  apply String.eqb_neq in HA, HB. 
  assert (HBA : String.eqb idB idA = false) by (apply String.eqb_neq; congruence).
  unfold mount, runEffect. rewrite HA.
  cbn [panel_run panel_exec entityId state pending]. rewrite HBA.
  unfold runEffect. rewrite HB.
  cbn [panel_run panel_exec entityId state pending app lookup list_lookup delete list_delete].
  split.
  - eexists. split; [reflexivity|]. cbn [pending state]. split; [reflexivity|].
    destruct (server idB) as [|[] [[d|]|]]; reflexivity.
  - rewrite Hs. eexists. split; [reflexivity|].
    cbn [entityId pending state]. conjuncts; reflexivity.
Qed.

End RecordPanel.

(** ** The chat panel *)

Section Chat.
Import ChatPanel.

Lemma trimStart_fixed (c : Ascii.ascii) (s : string) :
  JS.is_space c = false -> JS.trimStart (String c s) = String c s.
Proof. intros H. cbn [JS.trimStart]. now rewrite H. Qed.

Lemma trimStart_head (s : string) :
  JS.trimStart s = ""
  \/ exists c t, JS.trimStart s = String c t /\ JS.is_space c = false.
Proof.
  induction s as [|c s IH]; [now left|].
  cbn [JS.trimStart]. destruct (JS.is_space c) eqn:Hc; [exact IH|].
  right. now exists c, s.
Qed.

Lemma trimEnd_head (c : Ascii.ascii) (s : string) :
  JS.is_space c = false -> exists t, JS.trimEnd (String c s) = String c t.
Proof.
  intros H. cbn [JS.trimEnd]. rewrite H.
  destruct (JS.trimEnd s); eauto.
Qed.

Lemma trimEnd_idem (s : string) : JS.trimEnd (JS.trimEnd s) = JS.trimEnd s.
Proof.
  induction s as [|c s IH]; [reflexivity|].
  cbn [JS.trimEnd]. destruct (JS.trimEnd s) as [|c' t] eqn:Ht.
  - destruct (JS.is_space c) eqn:Hc; [reflexivity|].
    cbn [JS.trimEnd]. now rewrite Hc.
  - cbn [JS.trimEnd]. change (JS.trimEnd (String c' t)) with
      (match JS.trimEnd t with
       | EmptyString => if JS.is_space c' then EmptyString else String c' EmptyString
       | String a u => String c' (String a u)
       end) in IH |- *.
    rewrite IH. reflexivity.
Qed.

Lemma trim_idem (s : string) : JS.trim (JS.trim s) = JS.trim s.
Proof.
  unfold JS.trim. destruct (trimStart_head s) as [H|(c & t & H & Hc)]; rewrite H.
  - reflexivity.
  - destruct (trimEnd_head c t Hc) as [u Hu]. rewrite Hu.
    rewrite (trimStart_fixed c u Hc), <- Hu. apply trimEnd_idem.
Qed.

(** X18: a submit with an input that is empty or all white space, or while an
    answer is awaited, changes nothing and sends nothing.  A submit that
    sends appends one user message, whose text is the trimmed input (not
    empty, no white space at either end), clears the input and sets the
    loading flag. *)
Theorem handleSubmit_guard (st : State) :
  (JS.trim (inputValue st) = "" \/ loading st = true ->
   handleSubmit_start st = (st, false))
  /\ (forall st', handleSubmit_start st = (st', true) ->
        loading st = false
        /\ exists msg,
             msg = JS.trim (inputValue st) /\ msg <> "" /\ JS.trim msg = msg
             /\ messages st' = messages st ++ [ {| role := user; content := VStr msg |} ]
             /\ inputValue st' = "" /\ loading st' = true /\ isOpen st' = isOpen st).
Proof.
  unfold handleSubmit_start. cbn [JS.truthy].
  destruct (String.eqb_spec (JS.trim (inputValue st)) "") as [He|Hne];
    cbn [negb orb].
  - split; [reflexivity|discriminate].
  - destruct (loading st) eqn:Hl.
    + split; [reflexivity|discriminate].
    + split; [intros [H|H]; [contradiction|discriminate]|].
      intros st' H. injection H as <-. split; [reflexivity|].
      exists (JS.trim (inputValue st)). conjuncts; try reflexivity; auto.
      apply trim_idem.
Qed.

Lemma exchanges_snoc (n : nat) :
  exchanges n ++ [user; assistant] = exchanges (S n).
Proof.
  induction n as [|n IH]; [reflexivity|].
  cbn [exchanges app] in *. now rewrite IH.
Qed.


Lemma finish_pushes (st st' : State) (o : Fetch.outcome val) :
  handleSubmit_finish st o = Ok st' ->
  exists m, role m = assistant /\ st' = setLoading false (push m st).
Proof.
  unfold handleSubmit_finish.
  destruct (post o) as [d|e].
  - destruct (JS.get d "response") as [r|e]; cbn [JS.bind]; [|discriminate].
    intros H. injection H as <-. now exists {| role := assistant; content := r |}.
  - intros H. injection H as <-. now exists error_notice.
Qed.

Lemma renders_push (st : State) (m : Message) :
  renders st = true -> valid_child (content m) = true -> renders (push m st) = true.
Proof.
  unfold renders. cbn [push isOpen messages].
  destruct (isOpen st); cbn [negb orb]; [|reflexivity].
  intros H Hm. rewrite forallb_app, H. cbn. now rewrite Hm.
Qed.

Lemma renders_start (st : State) :
  renders st = true -> renders (fst (handleSubmit_start st)) = true.
Proof.
  intros H. unfold handleSubmit_start.
  destruct (negb _ || _); cbn [fst]; [exact H|].
  change (renders (push {| role := user; content := VStr (JS.trim (inputValue st)) |}
                     (setInputValue "" st)) = true).
  now apply renders_push.
Qed.

Lemma commit_cases (pn : Panel) (next : result State) (reqs : nat) :
  (exists st, next = Ok st /\ renders st = true
              /\ commit pn next reqs = {| state := st; requests := reqs; mounted := true |})
  \/ ((forall st, next = Ok st -> renders st = false)
      /\ commit pn next reqs
         = {| state := state pn; requests := reqs; mounted := false |}).
Proof.
  unfold commit. destruct next as [st|e].
  - destruct (renders st) eqn:Hr.
    + left. now exists st.
    + right. split; [|reflexivity]. intros st0 H. now injection H as <-.
  - right. split; [|reflexivity]. intros st0 H. discriminate H.
Qed.

Ltac take H :=
  cbn beta iota zeta in H;
  match type of H with
  | Some _ = Some ?q => apply (inj Some) in H; subst q
  end.

Lemma exec_well_formed (pn pn' : Panel) (ev : Event) :
  well_formed pn -> exec pn ev = Some pn' -> well_formed pn'.
Proof.
  unfold well_formed. intros ([n Hlog] & Hle & Hm) Hex.
  destruct (mounted pn) eqn:Hmt.
  - destruct (Hm eq_refl) as [Hreq Hr]. clear Hm.
    assert (Hkeep : forall reqs,
               (reqs <= (if loading (state pn) then 1 else 0))%nat ->
               well_formed {| state := state pn; requests := reqs; mounted := false |}).
    { intros reqs H. unfold well_formed. cbn. split; [eauto|]. split; [exact H|discriminate]. }
    unfold well_formed in Hkeep.
    destruct ev as [s| | | |o]; cbn [exec] in Hex; rewrite ?Hmt in Hex.
    + take Hex.
      destruct (commit_cases pn (Ok (setInputValue s (state pn))) (requests pn))
        as [(st & Hst & Hrs & ->)|[_ ->]]; [|now apply Hkeep].
      injection Hst as <-. cbn. split; [eauto|]. split; [exact Hle|]. intros _. now split.
    + take Hex.
      destruct (commit_cases pn (Ok (setIsOpen (negb (isOpen (state pn))) (state pn)))
                  (requests pn))
        as [(st & Hst & Hrs & ->)|[_ ->]]; [|now apply Hkeep].
      injection Hst as <-. cbn. split; [eauto|]. split; [exact Hle|]. intros _. now split.
    + take Hex.
      destruct (commit_cases pn (Ok (setIsOpen false (state pn))) (requests pn))
        as [(st & Hst & Hrs & ->)|[_ ->]]; [|now apply Hkeep].
      injection Hst as <-. cbn. split; [eauto|]. split; [exact Hle|]. intros _. now split.
    + pose proof (renders_start (state pn) Hr) as Hrs.
      unfold handleSubmit_start in Hex, Hrs.
      destruct (negb (JS.truthy (VStr (JS.trim (inputValue (state pn)))))
                || loading (state pn)) eqn:Hg; cbn [fst] in Hrs.
      * take Hex. unfold commit. rewrite Hr. cbn.
        split; [eauto|]. split; [exact Hle|]. intros _. now split.
      * apply orb_false_elim in Hg as [_ Hl]. rewrite Hl in *.
        take Hex. unfold commit. rewrite Hrs. cbn.
        split; [|split; [lia|intros _; split; [now rewrite Hreq|exact Hrs]]].
        exists n. rewrite map_app, Hlog. unfold log_shape. cbn.
        now rewrite app_nil_r.
    + destruct (requests pn) as [|k] eqn:Hk; [discriminate|].
      take Hex.
      destruct (loading (state pn)) eqn:Hl; [|discriminate].
      injection Hreq as ->.
      destruct (commit_cases pn (handleSubmit_finish (state pn) o) 0)
        as [(st & Hst & Hrs & ->)|[_ ->]].
      * destruct (finish_pushes _ _ _ Hst) as (m & Hrole & ->).
        cbn. split; [|split; [lia|intros _; split; [reflexivity|exact Hrs]]].
        exists (S n). rewrite map_app, Hlog, ?Hl. unfold log_shape. cbn [map app].
        rewrite Hrole. rewrite app_nil_r, <- exchanges_snoc, <- app_assoc. reflexivity.
      * cbn. rewrite Hl. split; [eauto|]. split; [lia|discriminate].
  - destruct ev as [s| | | |o]; cbn [exec] in Hex; rewrite ?Hmt in Hex;
      try discriminate.
    destruct (requests pn) as [|k] eqn:Hk; [discriminate|].
    take Hex. cbn.
    split; [eauto|]. split; [|discriminate].
    destruct (loading (state pn)); lia.
Qed.

(** X19: in every state the chat can reach, also after a crash, the log is
    the greeting followed by complete exchanges, a question and one
    answer (or the error notice), plus one open question exactly while
    the loading flag is set.  A request is in flight only while the flag
    is set, and never more than one; while the panel is mounted exactly
    one request is in flight while the flag is set, and what it shows
    renders without an error. *)
Theorem chat_log_shape (evs : list Event) (pn : Panel) :
  run start evs = Some pn ->
  (exists n, map role (messages (state pn)) = log_shape n (loading (state pn)))
  /\ (requests pn <= (if loading (state pn) then 1 else 0))%nat
  /\ (mounted pn = true ->
      requests pn = (if loading (state pn) then 1%nat else 0%nat)
      /\ renders (state pn) = true).
Proof.
  assert (H : forall p, well_formed p -> run p evs = Some pn -> well_formed pn).
  { induction evs as [|ev evs IH]; intros p Hp Hrun; cbn [run] in Hrun.
    - now injection Hrun as <-.
    - destruct (exec p ev) as [p1|] eqn:Hex; [|discriminate].
      eapply IH; [|exact Hrun]. eapply exec_well_formed; eassumption. }
  apply H. split; [now exists 0%nat|]. split; [reflexivity|]. intros _. now split.
Qed.

Lemma commit_extends (pn : Panel) (st : State) (reqs : nat) :
  messages (state pn) `prefix_of` messages st ->
  (length (messages st) <= S (length (messages (state pn))))%nat ->
  messages (state pn) `prefix_of` messages (state (commit pn (Ok st) reqs))
  /\ (length (messages (state (commit pn (Ok st) reqs)))
      <= S (length (messages (state pn))))%nat.
Proof.
  intros Hp Hl. unfold commit. destruct (renders st); cbn [state].
  - now split.
  - split; [reflexivity|lia].
Qed.

Lemma exec_extends (pn pn' : Panel) (ev : Event) :
  exec pn ev = Some pn' ->
  messages (state pn) `prefix_of` messages (state pn')
  /\ (length (messages (state pn')) <= S (length (messages (state pn))))%nat.
Proof.
  intros Hex.
  assert (Hsame : messages (state pn) `prefix_of` messages (state pn)
                  /\ (length (messages (state pn))
                      <= S (length (messages (state pn))))%nat)
    by (split; [reflexivity|lia]).
  destruct ev as [s| | | |o]; cbn [exec] in Hex.
  - destruct (mounted pn); [|discriminate]. take Hex.
    apply commit_extends; cbn; [reflexivity|lia].
  - destruct (mounted pn); [|discriminate]. take Hex.
    apply commit_extends; cbn; [reflexivity|lia].
  - destruct (mounted pn); [|discriminate]. take Hex.
    apply commit_extends; cbn; [reflexivity|lia].
  - destruct (mounted pn); [|discriminate].
    unfold handleSubmit_start in Hex.
    destruct (negb _ || _); take Hex; apply commit_extends; cbn.
    + reflexivity.
    + lia.
    + now apply prefix_app_r.
    + rewrite length_app. cbn. lia.
  - destruct (requests pn); [discriminate|].
    destruct (mounted pn); take Hex; [|exact Hsame].
    destruct (handleSubmit_finish (state pn) o) as [st|e] eqn:Hf; [|exact Hsame].
    destruct (finish_pushes _ _ _ Hf) as (m & _ & ->).
    apply commit_extends; cbn.
    + now apply prefix_app_r.
    + rewrite length_app. cbn. lia.
Qed.

(** X20: the chat log only grows at its end: whatever happens, a crash
    included, the log of before is a prefix of the log after, and every
    event adds at most one message. *)
Theorem chat_log_append_only (pn pn' : Panel) (evs : list Event) :
  run pn evs = Some pn' ->
  messages (state pn) `prefix_of` messages (state pn')
  /\ (length (messages (state pn'))
      <= length (messages (state pn)) + length evs)%nat.
Proof.
  revert pn. induction evs as [|ev evs IH]; intros pn Hrun; cbn [run] in Hrun.
  - injection Hrun as <-. split; [reflexivity|lia].
  - destruct (exec pn ev) as [p1|] eqn:Hex; [|discriminate].
    destruct (exec_extends _ _ _ Hex) as [Hp Hl].
    destruct (IH p1 Hrun) as [Hp' Hl']. split.
    + etransitivity; eassumption.
    + cbn [length]. lia.
Qed.

(** X21: when the answer arrives at a mounted panel that renders and has a
    request in flight, one of two things happens.  For a rejected
    request, a status that is not ok or a body that is no JSON, the
    error notice is appended, the loading flag is cleared, the text the
    user has typed meanwhile is kept, and the panel stays mounted.  For
    an ok response the [catch] plays no part: the body [null] makes the
    updater throw, and the panel is unmounted with its state as it was;
    any other body appends an assistant message whose content is the
    [response] member of the body ([undefined] when an object has
    none) and clears the loading flag, unless the panel is open and the
    content is no valid child (a plain object), in which case the panel
    is unmounted as well. *)
Theorem answer_outcome (pn : Panel) (n : nat) (o : Fetch.outcome val) :
  mounted pn = true -> renders (state pn) = true -> requests pn = S n ->
  exists pn',
    exec pn (Answer o) = Some pn'
    /\ requests pn' = n
    /\ (mounted pn' = true ->
        loading (state pn') = false
        /\ inputValue (state pn') = inputValue (state pn)
        /\ isOpen (state pn') = isOpen (state pn)
        /\ exists m, role m = assistant
                     /\ messages (state pn') = messages (state pn) ++ [m])
    /\ (mounted pn' = false -> state pn' = state pn)
    /\ (Fetch.refused o = true ->
        mounted pn' = true
        /\ messages (state pn') = messages (state pn) ++ [error_notice])
    /\ (o = Fetch.Response true (Some VNull) -> mounted pn' = false)
    /\ (forall (d : gmap string val),
          o = Fetch.Response true (Some (VObj d)) ->
          let r := default VUndef (d !! "response") in
          mounted pn' = (negb (isOpen (state pn)) || valid_child r)
          /\ (mounted pn' = true ->
              messages (state pn')
              = messages (state pn) ++ [ {| role := assistant; content := r |} ])).
Proof.
  intros Hmt Hr Hreq. cbn [exec]. rewrite Hreq, Hmt.
  eexists. split; [reflexivity|].
  assert (Hreqs : requests (commit pn (handleSubmit_finish (state pn) o) n) = n).
  { unfold commit. destruct (handleSubmit_finish (state pn) o) as [st|e];
      [destruct (renders st)|]; reflexivity. }
  split; [exact Hreqs|].
  split; [|split; [|split; [|split]]].
  - destruct (commit_cases pn (handleSubmit_finish (state pn) o) n)
      as [(st & Hst & Hrs & ->)|[_ ->]]; [|discriminate].
    intros _. destruct (finish_pushes _ _ _ Hst) as (m & Hrole & ->). cbn.
    split; [reflexivity|split; [reflexivity|split; [reflexivity|]]].
    now exists m.
  - destruct (commit_cases pn (handleSubmit_finish (state pn) o) n)
      as [(st & Hst & Hrs & ->)|[_ ->]]; [discriminate|reflexivity].
  - intros Href.
    assert (Hf : handleSubmit_finish (state pn) o
                 = Ok (setLoading false (push error_notice (state pn)))).
    { destruct o as [|[] [d|]]; try discriminate; reflexivity. }
    rewrite Hf. unfold commit.
    assert (Hrn : renders (setLoading false (push error_notice (state pn))) = true)
      by (now apply (renders_push (state pn) error_notice)).
    rewrite Hrn. now split.
  - intros ->. reflexivity.
  - intros d ->. set (r := default VUndef (d !! "response")).
    assert (Hf : handleSubmit_finish (state pn) (Fetch.Response true (Some (VObj d)))
                 = Ok (setLoading false
                         (push {| role := assistant; content := r |} (state pn))))
      by reflexivity.
    rewrite Hf. unfold commit.
    assert (Hrn : renders (setLoading false
                             (push {| role := assistant; content := r |} (state pn)))
                  = (negb (isOpen (state pn)) || valid_child r)).
    { revert Hr. unfold renders. cbn [setLoading push isOpen messages content].
      destruct (isOpen (state pn)); cbn [negb orb]; [|reflexivity].
      intros Hr. rewrite forallb_app, Hr. cbn. now rewrite andb_true_r. }
    rewrite Hrn. destruct (negb (isOpen (state pn)) || valid_child r); cbn.
    + now split.
    + split; [reflexivity|discriminate].
Qed.

End Chat.

(** ** Instances *)

(** A row without any name key resolves to the name ["Unknown"]. *)
Lemma resolved_fields_never_blank_name_witness :
  exists r,
    Explorer.normalizeItem (VObj {[ "Description" := VStr "free text" ]}) = Ok r
    /\ JS.truthy (Explorer.fieldName r) = true
    /\ Explorer.fieldName r = VStr "Unknown".
Proof.
  eexists. split; [reflexivity|]. split; [|reflexivity].
  exact (proj1 (resolved_fields_never_blank_name
                  (VObj {[ "Description" := VStr "free text" ]}) _ eq_refl)).
Defined.

(** A key that is no alias changes nothing. *)
Lemma resolver_reads_alias_keys_only_witness :
  Explorer.normalizeItem (VObj (<["Comment" := VStr "free text"]> Explorer.row_X_T))
  = Explorer.normalizeItem (VObj Explorer.row_X_T).
Proof.
  apply resolver_reads_alias_keys_only.
  intros k Hk. apply lookup_insert_ne. intros <-.
  cbn in Hk. repeat (destruct Hk as [Hk|Hk]; [discriminate Hk|]). exact Hk.
Defined.


(** A score of NaN and a score of minus five. *)
Lemma score_edge_cases_witness :
  @GraphViz.node_style example_runtime
    (GraphViz.plain_node "n" {[ "risk_score" := VNum S754_nan ]}) true
  = GraphViz.low_style
  /\ @GraphViz.node_style example_runtime (GraphViz.scored_node (-5)) true
     = GraphViz.low_style.
Proof.
  split.
  - eapply (proj1 (@score_edge_cases example_runtime
                     (GraphViz.plain_node "n" {[ "risk_score" := VNum S754_nan ]})
                     S754_nan _)).
    reflexivity.
  - eapply (proj1 (proj2 (proj2 (@score_edge_cases example_runtime
                     (GraphViz.scored_node (-5)) _ _)))).
    reflexivity.
  Unshelve. all: reflexivity.
Defined.

(** A score of 60 is medium, so a score of 80 is medium or high. *)
Lemma encoding_monotone_witness :
  @GraphViz.node_style example_runtime (GraphViz.scored_node 80) true = GraphViz.medium_style
  \/ @GraphViz.node_style example_runtime (GraphViz.scored_node 80) true = GraphViz.high_style.
Proof.
  eapply (proj1 (proj2 (@encoding_monotone example_runtime
                          (GraphViz.scored_node 60) (GraphViz.scored_node 80)
                          _ _ _ _ _ _ _ _ _ _ _))).
  reflexivity.
  Unshelve.
  all: try reflexivity.
  qcompare.
Defined.

(** While entity B is being fetched the button is dead. *)
Lemma loading_iff_request_in_flight_witness :
  exists pg,
    @Session.run example_runtime example_reactflow
      (@Session.initial example_runtime) Session.session_A_then_B = Some pg
    /\ Home.loading (Session.home pg) = true
    /\ @Session.exec example_runtime example_reactflow pg Session.ClickAnalyze = None.
Proof.
  eexists. split; [vm_compute; reflexivity|].
  match goal with
  | |- Home.loading (Session.home ?q) = true /\ _ =>
      pose proof (@loading_iff_request_in_flight example_runtime example_reactflow
                    Session.session_A_then_B q eq_refl) as (Hl & _ & Hc)
  end.
  split.
  - apply Hl. discriminate.
  - apply Hc. discriminate.
Defined.

(** The record of A, answered late, under the id B. *)
Lemma stale_record_overwrites_witness :
  let server := fun id : string =>
    if String.eqb id "A"
    then Fetch.Response true (Some (Some EntityDetails.erp_entity))
    else Fetch.Rejected in
  exists pn,
    EntityDetails.panel_run server (EntityDetails.mount "A")
      [EntityDetails.SetEntityId "B"; EntityDetails.Arrive 1; EntityDetails.Arrive 0]
    = Some pn
    /\ EntityDetails.entityId pn = "B"
    /\ EntityDetails.data (EntityDetails.state pn) = Some EntityDetails.erp_entity.
Proof.
  intros server.
  destruct (stale_record_overwrites server "A" "B" EntityDetails.erp_entity)
    as (_ & pn & Hrun & Hid & _ & _ & Hd); try discriminate; [reflexivity|].
  exists pn. auto.
Defined.

(** The request for B is answered while the one for A is pending: the
    loading line goes although a request is still under way. *)
Lemma render_after_fetch_witness :
  let server := fun id : string =>
    if String.eqb id "A" then Fetch.Rejected
    else Fetch.Response true (Some (Some EntityDetails.erp_entity)) in
  let pn := {| EntityDetails.entityId := "B";
               EntityDetails.state := EntityDetails.fetchData_start EntityDetails.initial;
               EntityDetails.pending := ["A"; "B"] |} in
  exists pn',
    EntityDetails.panel_exec server pn (EntityDetails.Arrive 1%nat) = Some pn'
    /\ EntityDetails.pending pn' = ["A"]
    /\ EntityDetails.loading (EntityDetails.state pn') = false
    /\ @EntityDetails.render example_runtime (EntityDetails.state pn')
       = @EntityDetails.card example_runtime EntityDetails.erp_entity.
Proof.
  intros server pn.
  destruct (proj2 (@render_after_fetch example_runtime server pn) 1%nat "B" eq_refl)
    as (pn' & Hex & _ & Hp & Hl & _ & Hok).
  exists pn'. split; [exact Hex|]. split; [exact Hp|]. split; [exact Hl|].
  exact (proj1 (proj2 (proj2 (Hok (Some EntityDetails.erp_entity) eq_refl))) eq_refl).
Defined.

(** Trailing blanks are cut, the rejected request gives the notice. *)
Lemma chat_log_shape_witness :
  exists pn,
    ChatPanel.run ChatPanel.start
      [ChatPanel.Toggle; ChatPanel.Type_ "  who owns Gorman?  "; ChatPanel.Submit;
       ChatPanel.Answer Fetch.Rejected] = Some pn
    /\ (exists n, map ChatPanel.role (ChatPanel.messages (ChatPanel.state pn))
                  = ChatPanel.log_shape n (ChatPanel.loading (ChatPanel.state pn)))
    /\ (ChatPanel.requests pn
        <= (if ChatPanel.loading (ChatPanel.state pn) then 1 else 0))%nat
    /\ (ChatPanel.mounted pn = true ->
        ChatPanel.requests pn
        = (if ChatPanel.loading (ChatPanel.state pn) then 1%nat else 0%nat)
        /\ ChatPanel.renders (ChatPanel.state pn) = true).
Proof.
  eexists. split; [vm_compute; reflexivity|].
  match goal with
  | |- (exists n, map _ (ChatPanel.messages (ChatPanel.state ?q)) = _) /\ _ =>
      exact (chat_log_shape
               [ChatPanel.Toggle; ChatPanel.Type_ "  who owns Gorman?  "; ChatPanel.Submit;
                ChatPanel.Answer Fetch.Rejected] q eq_refl)
  end.
Defined.

(** A question and its answer. *)
Lemma chat_log_append_only_witness :
  exists pn,
    ChatPanel.run ChatPanel.start
      [ChatPanel.Type_ "hello"; ChatPanel.Submit;
       ChatPanel.Answer (Fetch.Response true (Some (VObj {[ "response" := VStr "hi" ]})))]
    = Some pn
    /\ [ChatPanel.greeting] `prefix_of` ChatPanel.messages (ChatPanel.state pn)
    /\ (length (ChatPanel.messages (ChatPanel.state pn)) <= 1 + 3)%nat.
Proof.
  eexists. split; [vm_compute; reflexivity|].
  match goal with
  | |- _ `prefix_of` ChatPanel.messages (ChatPanel.state ?q) /\ _ =>
      exact (chat_log_append_only ChatPanel.start q
               [ChatPanel.Type_ "hello"; ChatPanel.Submit;
                ChatPanel.Answer (Fetch.Response true
                                    (Some (VObj {[ "response" := VStr "hi" ]})))]
               eq_refl)
  end.
Defined.

(** The open panel after a question: the body [null] unmounts it. *)
Lemma answer_outcome_witness :
  exists pn',
    ChatPanel.exec ChatPanel.asked (ChatPanel.Answer (Fetch.Response true (Some VNull)))
    = Some pn'
    /\ ChatPanel.requests pn' = 0%nat
    /\ ChatPanel.mounted pn' = false
    /\ ChatPanel.state pn' = ChatPanel.state ChatPanel.asked.
Proof.
  destruct (answer_outcome ChatPanel.asked 0 (Fetch.Response true (Some VNull))
              eq_refl eq_refl eq_refl)
    as (pn' & Hex & Hreq & _ & Hst & _ & Hnull & _).
  exists pn'. split; [exact Hex|]. split; [exact Hreq|].
  split; [exact (Hnull eq_refl)|exact (Hst (Hnull eq_refl))].
Defined.

(** ** The fallback on the canvas *)

Section Fallback.
Context {R : Runtime} {F : ReactFlow}.
Import Session.

(** X22: whenever a search fails (the request is rejected, the status is
    not ok, the body is no JSON or is [null]), the canvas shows the
    three demo nodes under their ids ["1"], ["2"] and ["3"]: the names
    the demo data carries as [label] are overwritten by the derivation
    and never shown.  The two demo edges keep their labels. *)
Theorem fallback_shows_ids (pg pg' : Page) (i : nat) (o : Home.GraphOutcome) :
  Fetch.refused o = true \/ (exists ok, o = Fetch.Response ok (Some None)) ->
  exec pg (Respond i o) = Some pg' ->
  map (fun n => JS.text (JS.child 0 (default VUndef (Node.data n !! "label"))))
      (GraphViz.nodes (graph pg'))
  = ["1"; "2"; "3"]
  /\ map Edge.label (GraphViz.edges (graph pg')) = [VStr "OWNS"; VStr "PARTNER"]
  /\ Home.error (home pg') = "Failed to fetch graph data. Is the backend running?".
Proof.
  intros Ho Hex. cbn [exec] in Hex.
  destruct (inflight pg !! i); [|discriminate]. injection Hex as <-.
  assert (Hf : Home.handleSearch_finish (home pg) o
               = {| Home.entityId := Home.entityId (home pg);
                    Home.nodes := Home.mock_nodes; Home.edges := Home.mock_edges;
                    Home.loading := false;
                    Home.error := "Failed to fetch graph data. Is the backend running?" |}).
  { destruct Ho as [H|[ok ->]].
    - destruct o as [|[] [d|]]; try discriminate; reflexivity.
    - destruct ok; reflexivity. }
  cbn [home graph]. rewrite Hf.
  unfold GraphViz.receiveProps, GraphViz.effect, Home.graph_props.
  cbn [GraphViz.nodes GraphViz.edges GraphViz.props GraphViz.initialNodes
       GraphViz.initialEdges GraphViz.riskMode Home.nodes Home.edges Home.error].
  conjuncts; [|reflexivity|reflexivity].
  destruct (GraphViz.riskMode (graph pg)); reflexivity.
Qed.

End Fallback.

(** A failed search after the graph of entity A was shown. *)
Lemma fallback_shows_ids_witness :
  exists pg pg' : Session.Page,
    @Session.run example_runtime example_reactflow
      (@Session.initial example_runtime) Session.session_A_then_B = Some pg
    /\ @Session.exec example_runtime example_reactflow pg
         (Session.Respond 0 Fetch.Rejected) = Some pg'
    /\ map (fun n => @JS.text example_runtime
                       (JS.child 0 (default VUndef (Node.data n !! "label"))))
           (GraphViz.nodes (Session.graph pg'))
       = ["1"; "2"; "3"].
Proof.
  eexists. eexists.
  split; [vm_compute; reflexivity|].
  match goal with
  | |- ?A /\ _ => assert (Hex : A) by (vm_compute; reflexivity); split; [exact Hex|]
  end.
  exact (proj1 (@fallback_shows_ids example_runtime example_reactflow
                  _ _ 0%nat Fetch.Rejected (or_introl eq_refl) Hex)).
Defined.
